(** * Fact-checker server: the request handlers of [src/server.js] and of
    its sibling [src/unnamed/part_000], embedded in Rocq.

    The two files are two versions of the same Express application.  Each
    registers [GET /], [GET /health] and [POST /analyze].  The handlers are
    embedded as functions from the process configuration and the request to
    the response and the list of side effects (console lines and outbound
    calls to the provider), in program order.

    The part of the JavaScript runtime the handlers rely on (truthiness,
    [ToNumber], [Math.min], [Math.max], property access in strict mode,
    template literals) is written out first, following ECMA-262. *)

From Stdlib Require Import ZArith QArith List String Ascii Bool Lia.
Import ListNotations.

Set Implicit Arguments.
Set Warnings "-register-all".
Local Open Scope string_scope.
Local Open Scope list_scope.
Local Open Scope Z_scope.

(** ** Strings *)

(** A JavaScript string is a sequence of UTF-16 code units; [length] and
    [substring] count code units. *)
Definition code_unit := N.
Definition jsstring := list code_unit.

(** The string of an ASCII literal of the source. *)
Definition js (s : string) : jsstring :=
  List.map N_of_ascii (list_ascii_of_string s).

Fixpoint jsstring_eqb (a b : jsstring) : bool :=
  match a, b with
  | [], [] => true
  | x :: a', y :: b' => N.eqb x y && jsstring_eqb a' b'
  | _, _ => false
  end.

(** [s.substring(0, n)] for [0 <= n]. *)
Definition substring0 (s : jsstring) (n : nat) : jsstring := firstn n s.

(** ** Numbers *)

(** A Number is NaN, an infinity or a finite double.  A finite double is a
    rational; the handlers only compare numbers and pick one of two, which
    is exact, so the finite case carries the rational value.  The two zeros
    are identified: both are falsy, and [Math.max] and [Math.min] return
    one of them. *)
Inductive number : Type :=
| NaN
| NegInf
| PosInf
| Fin (q : Q).

Definition num_of_Z (z : Z) : number := Fin (inject_Z z).
Definition num_of_nat (n : nat) : number := num_of_Z (Z.of_nat n).

(** [x < y] on Numbers (Number::lessThan); [false] when either is NaN, as
    the relational operators turn the undefined result into [false]. *)
Definition num_ltb (x y : number) : bool :=
  match x, y with
  | NaN, _ | _, NaN => false
  | _, NegInf => false
  | NegInf, _ => true
  | PosInf, _ => false
  | Fin _, PosInf => true
  | Fin a, Fin b => match Qcompare a b with Lt => true | _ => false end
  end.

Definition num_is_zero (x : number) : bool :=
  match x with
  | Fin q => match Qcompare q 0 with Eq => true | _ => false end
  | _ => false
  end.

(** [Math.max(x, y)] and [Math.min(x, y)] on Numbers (after coercion). *)
Definition Math_max (x y : number) : number :=
  match x, y with
  | NaN, _ | _, NaN => NaN
  | _, _ => if num_ltb x y then y else x
  end.

Definition Math_min (x y : number) : number :=
  match x, y with
  | NaN, _ | _, NaN => NaN
  | _, _ => if num_ltb y x then y else x
  end.

(** The closed interval [0, 10] of scores. *)
Definition in_0_10 (x : number) : Prop :=
  match x with
  | Fin q => (0 <= q /\ q <= 10)%Q
  | _ => False
  end.

(** ** StringToNumber (ECMA-262 7.1.4.1.1) *)

(** [StrWhiteSpaceChar]: WhiteSpace and LineTerminator code units. *)
Definition is_StrWhiteSpaceChar (c : code_unit) : bool :=
  existsb (N.eqb c)
    [9; 10; 11; 12; 13; 32; 160; 5760; 8232; 8233; 8239; 8287; 12288; 65279]%N
  || (N.leb 8192 c && N.leb c 8202).

Fixpoint drop_StrWhiteSpace (s : jsstring) : jsstring :=
  match s with
  | c :: s' => if is_StrWhiteSpaceChar c then drop_StrWhiteSpace s' else s
  | [] => []
  end.

Definition trim (s : jsstring) : jsstring :=
  rev (drop_StrWhiteSpace (rev (drop_StrWhiteSpace s))).

(** The value of a digit in the given radix, if it is one. *)
Definition digit_value (radix : Z) (c : code_unit) : option Z :=
  let z := Z.of_N c in
  let v := if (48 <=? z) && (z <=? 57) then z - 48
           else if (97 <=? z) && (z <=? 102) then z - 87
           else if (65 <=? z) && (z <=? 70) then z - 55
           else radix in
  if v <? radix then Some v else None.

(** The longest prefix of digits: its value, its length and the rest. *)
Fixpoint span_digits (radix : Z) (acc : Z) (n : Z) (s : jsstring)
  : Z * Z * jsstring :=
  match s with
  | c :: s' =>
      match digit_value radix c with
      | Some v => span_digits radix (acc * radix + v) (n + 1) s'
      | None => (acc, n, s)
      end
  | [] => (acc, n, [])
  end.

(** RoundMVResult: the double nearest to a rational, ties to even, with the
    gradual underflow and the overflow of binary64. *)
Definition round_pos (n d : Z) : number :=
  let e0 := Z.log2 n - Z.log2 d in
  let below := if 0 <=? e0 then n <? 2 ^ e0 * d else n * 2 ^ (- e0) <? d in
  let e := if below then e0 - 1 else e0 in
  let p := Z.max (e - 52) (-1074) in
  let num := if 0 <=? p then n else n * 2 ^ (- p) in
  let den := if 0 <=? p then d * 2 ^ p else d in
  let m := num / den in
  let r := num mod den in
  let m' := if 2 * r <? den then m
            else if den <? 2 * r then m + 1
            else if Z.even m then m else m + 1 in
  if 2 ^ 53 * 2 ^ 971 <=? (if 0 <=? p then m' * 2 ^ p else 0) then PosInf
  else Fin (Qred (if 0 <=? p then inject_Z (m' * 2 ^ p)
                  else Qmake m' (Z.to_pos (2 ^ (- p))))).

Definition num_neg (x : number) : number :=
  match x with
  | NaN => NaN
  | NegInf => PosInf
  | PosInf => NegInf
  | Fin q => Fin (Qred (- q))
  end.

Definition RoundMVResult (q : Q) : number :=
  match Qnum q with
  | Z0 => Fin 0
  | Zpos n => round_pos (Zpos n) (Zpos (Qden q))
  | Zneg n => num_neg (round_pos (Zpos n) (Zpos (Qden q)))
  end.

(** The mathematical value of [digits * 10 ^ e]. *)
Definition decimal_MV (digits e : Z) : Q :=
  if 0 <=? e then inject_Z (digits * 10 ^ e)
  else Qmake digits (Z.to_pos (10 ^ (- e))).

(** [ExponentPart_opt] followed by the end of the string: the exponent. *)
Definition parse_exponent (s : jsstring) : option Z :=
  match s with
  | [] => Some 0
  | c :: s' =>
      if N.eqb c 101 || N.eqb c 69 then
        let '(neg, s'') :=
          match s' with
          | 43%N :: t => (false, t)
          | 45%N :: t => (true, t)
          | _ => (false, s')
          end in
        match span_digits 10 0 0 s'' with
        | (v, n, []) => if 0 <? n then Some (if neg then - v else v) else None
        | _ => None
        end
      else None
  end.

(** [StrUnsignedDecimalLiteral] other than [Infinity]. *)
Definition parse_unsigned_decimal (s : jsstring) : option Q :=
  let '(i, ni, r1) := span_digits 10 0 0 s in
  match r1 with
  | 46%N :: r1' =>
      let '(f, nf, r2) := span_digits 10 0 0 r1' in
      if 0 <? ni + nf then
        match parse_exponent r2 with
        | Some e => Some (decimal_MV (i * 10 ^ nf + f) (e - nf))
        | None => None
        end
      else None
  | _ =>
      if 0 <? ni then
        match parse_exponent r1 with
        | Some e => Some (decimal_MV i e)
        | None => None
        end
      else None
  end.

Definition parse_StrDecimalLiteral (s : jsstring) : number :=
  let '(neg, u) :=
    match s with
    | 43%N :: t => (false, t)
    | 45%N :: t => (true, t)
    | _ => (false, s)
    end in
  let x := if jsstring_eqb u (js "Infinity") then PosInf
           else match parse_unsigned_decimal u with
                | Some q => RoundMVResult q
                | None => NaN
                end in
  if neg then num_neg x else x.

(** [NonDecimalIntegerLiteral]: all of [s] is digits of the radix. *)
Definition parse_radix (radix : Z) (s : jsstring) : number :=
  match span_digits radix 0 0 s with
  | (v, n, []) => if 0 <? n then RoundMVResult (inject_Z v) else NaN
  | _ => NaN
  end.

Definition StringToNumber (s : jsstring) : number :=
  match trim s with
  | [] => Fin 0
  | 48%N :: x :: t =>
      if N.eqb x 120 || N.eqb x 88 then parse_radix 16 t
      else if N.eqb x 111 || N.eqb x 79 then parse_radix 8 t
      else if N.eqb x 98 || N.eqb x 66 then parse_radix 2 t
      else parse_StrDecimalLiteral (trim s)
  | t => parse_StrDecimalLiteral t
  end.

(** ** Values *)

(** The values the handlers meet: [undefined], and what [JSON.parse] and
    [express.json()] build.  An object is the list of its own properties in
    insertion order.  An array carries its elements and the named
    properties assigned to it (none after [JSON.parse]). *)
Inductive value : Type :=
| JUndefined
| JNull
| JBool (b : bool)
| JNum (n : number)
| JStr (s : jsstring)
| JArr (elems : list value) (props : list (jsstring * value))
| JObj (props : list (jsstring * value)).

Definition props := list (jsstring * value).

Fixpoint lookup (k : jsstring) (ps : props) : option value :=
  match ps with
  | [] => None
  | (k', v) :: ps' => if jsstring_eqb k k' then Some v else lookup k ps'
  end.

(** [o[k] = v] on own properties: overwrite in place, or append. *)
Fixpoint assign (k : jsstring) (v : value) (ps : props) : props :=
  match ps with
  | [] => [(k, v)]
  | (k', v') :: ps' =>
      if jsstring_eqb k k' then (k', v) :: ps' else (k', v') :: assign k v ps'
  end.

Definition has_own (k : jsstring) (ps : props) : bool :=
  match lookup k ps with Some _ => true | None => false end.

(** Exceptions.  Every exception the runtime and the provider's client
    raise is an [Error] object; the catch blocks only read its message. *)
Inductive exn : Type :=
| TypeError
| SyntaxError
| ProviderError (message : jsstring).

Inductive result (A : Type) : Type :=
| Ok (a : A)
| Throw (e : exn).
Arguments Ok {A} a.
Arguments Throw {A} e.

Definition and_then {A B} (r : result A) (k : A -> result B) : result B :=
  match r with
  | Ok a => k a
  | Throw e => Throw e
  end.

Notation "'let!' x := r 'in' k" := (and_then r (fun x => k))
  (at level 10, x name, r at level 100, k at level 200).

(** ToBoolean (7.1.2). *)
Definition ToBoolean (v : value) : bool :=
  match v with
  | JUndefined | JNull => false
  | JBool b => b
  | JNum NaN => false
  | JNum n => negb (num_is_zero n)
  | JStr [] => false
  | JStr _ => true
  | JArr _ _ | JObj _ => true
  end.

(** [a || b] on values. *)
Definition or_else (a b : value) : value := if ToBoolean a then a else b.

(** Whether ToString (7.1.17) returns.  It throws a TypeError on an object
    whose own [toString] property shadows the inherited method (no JSON
    value is callable, and the inherited [valueOf] returns the object).
    An array joins the strings of its elements. *)
Fixpoint ToString_completes (v : value) : bool :=
  match v with
  | JArr es ps =>
      if has_own (js "toString") ps then false
      else if has_own (js "join") ps then true
      else (fix all (l : list value) : bool :=
              match l with
              | [] => true
              | e :: l' => ToString_completes e && all l'
              end) es
  | JObj ps => negb (has_own (js "toString") ps)
  | _ => true
  end.

Definition ToString (v : value) : result unit :=
  if ToString_completes v then Ok tt else Throw TypeError.

(** ToNumber (7.1.4).  Objects and arrays go through ToPrimitive with hint
    number, which ends in their string: ["[object Object]"] is not
    numeric; an array of two or more elements holds a comma; the string of
    a one-element array is the string of its element, and a Number
    survives the round trip through its string. *)
Fixpoint ToNumber (v : value) : result number :=
  match v with
  | JUndefined => Ok NaN
  | JNull => Ok (Fin 0)
  | JBool b => Ok (if b then Fin 1 else Fin 0)
  | JNum n => Ok n
  | JStr s => Ok (StringToNumber s)
  | JObj ps => if has_own (js "toString") ps then Throw TypeError else Ok NaN
  | JArr es ps =>
      if has_own (js "toString") ps then Throw TypeError
      else if has_own (js "join") ps then Ok NaN
      else match es with
           | [] => Ok (Fin 0)
           | [e] =>
               match e with
               | JUndefined | JNull => Ok (Fin 0)
               | JBool _ => Ok NaN
               | _ => ToNumber e
               end
           | _ => if ToString_completes v then Ok NaN else Throw TypeError
           end
  end.

(** [a < b] where one side is a Number: both sides are converted. *)
Definition less_than (a b : value) : result bool :=
  let! x := ToNumber a in
  let! y := ToNumber b in
  Ok (num_ltb x y).

(** [v.k] for a property name that is not an array index. *)
Definition get_prop (v : value) (k : jsstring) : result value :=
  match v with
  | JUndefined | JNull => Throw TypeError
  | JBool _ | JNum _ => Ok JUndefined
  | JStr s =>
      Ok (if jsstring_eqb k (js "length") then JNum (num_of_nat (List.length s))
          else JUndefined)
  | JArr es ps =>
      Ok (if jsstring_eqb k (js "length") then JNum (num_of_nat (List.length es))
          else match lookup k ps with Some x => x | None => JUndefined end)
  | JObj ps => Ok (match lookup k ps with Some x => x | None => JUndefined end)
  end.

(** [v.k = x] in strict mode (both files are ES modules), for a property
    name that is neither an array index nor [length]. *)
Definition set_prop (v : value) (k : jsstring) (x : value) : result value :=
  match v with
  | JArr es ps => Ok (JArr es (assign k x ps))
  | JObj ps => Ok (JObj (assign k x ps))
  | _ => Throw TypeError
  end.

(** Literals of the source. *)
Definition str (s : string) : value := JStr (js s).
Definition num (z : Z) : value := JNum (num_of_Z z).
Definition obj (l : list (string * value)) : value :=
  JObj (List.map (fun kv => (js (fst kv), snd kv)) l).
Definition empty_array : value := JArr [] [].

Definition typeof_string (v : value) : bool :=
  match v with JStr _ => true | _ => false end.

(** [Math.min(10, Math.max(0, v))]: each call converts its arguments. *)
Definition clamp_0_10 (v : value) : result number :=
  let! x := ToNumber v in
  Ok (Math_min (Fin 10) (Math_max (Fin 0) x)).

(** [s.substring(0, n)]: a method of strings only. *)
Definition substring (v : value) (n : nat) : result jsstring :=
  match v with
  | JStr s => Ok (substring0 s n)
  | _ => Throw TypeError
  end.

(** [a.join(sep)]: [Array.prototype.join] for an array without a [join]
    property of its own; not a function on anything else a reply holds.
    Only whether it returns is kept: its string goes to the console. *)
Definition join (v : value) : result unit :=
  match v with
  | JArr es ps =>
      if has_own (js "join") ps then Throw TypeError
      else ToString (JArr es [])
  | JUndefined | JNull | JBool _ | JNum _ | JStr _ | JObj _ => Throw TypeError
  end.

(** ** The provider and the process *)

(** The [responseSchema] of the generation config. *)
Inductive schema : Type :=
| NUMBER
| STRING
| ARRAY (items : schema)
| OBJECT (properties : list (string * schema)) (required : list string).

(** The argument of [model.generateContent]. *)
Record request : Type := {
  contents : jsstring;            (* contents[0].parts[0].text, role user *)
  systemInstruction : jsstring;   (* systemInstruction.parts[0].text *)
  googleSearch : bool;            (* tools: [{ googleSearch: {} }] *)
  temperature : Q;
  responseMimeType : string;
  responseSchema : schema
}.

(** The text of a reply, up to what [JSON.parse] makes of it. *)
Inductive reply_text : Type :=
| NotJSON
| JSON (v : value).

Definition JSON_parse (t : reply_text) : result value :=
  match t with
  | NotJSON => Throw SyntaxError
  | JSON v => Ok v
  end.

(** What a handler sees of the process: the environment variable, the
    prompt built when the module loads, the provider behind
    [model.generateContent] followed by [result.response.text()] (either
    may throw), and the clock. *)
Record process : Type := {
  GEMINI_API_KEY : option jsstring;
  systemPrompt : jsstring;
  generateContent : request -> result reply_text;
  now : Z
}.

(** [!process.env.GEMINI_API_KEY] *)
Definition key_missing (p : process) : bool :=
  match GEMINI_API_KEY p with
  | None | Some [] => true
  | Some _ => false
  end.

(** Console lines, by the values substituted into them. *)
Inductive console : Type :=
| LogAnalyzing (length : nat)
| LogVerdict (risk score : value) (extra : list value)
| LogSources (sources : value)
| ErrorMissingKey
| ErrorFailed (e : exn).

Inductive event : Type :=
| Console (c : console)
| Outbound (r : request).

(** A response: the status, and the value handed to [res.json], which
    Express serialises with [JSON.stringify] (a NaN goes out as [null], and
    the named properties assigned to an array are not written). *)
Record response : Type := { status : Z; body : value }.

(** ** Handler bodies: exceptions and a log of effects *)

Definition M (A : Type) : Type := list event -> result A * list event.

Definition ret {A} (a : A) : M A := fun t => (Ok a, t).

Definition bind {A B} (c : M A) (k : A -> M B) : M B :=
  fun t => match c t with
           | (Ok a, t') => k a t'
           | (Throw e, t') => (Throw e, t')
           end.

Definition lift {A} (r : result A) : M A := fun t => (r, t).

Definition emit (e : event) : M unit := fun t => (Ok tt, t ++ [e]).

(** [try { c } catch (error) { h error }] *)
Definition try_catch {A} (c : M A) (h : exn -> M A) : M A :=
  fun t => match c t with
           | (Ok a, t') => (Ok a, t')
           | (Throw e, t') => h e t'
           end.

Declare Scope js_scope.
Delimit Scope js_scope with js.
Notation "x <- c ;; k" := (bind c (fun x => k))
  (at level 61, c at next level, right associativity) : js_scope.
Notation "c ;; k" := (bind c (fun _ => k))
  (at level 61, right associativity) : js_scope.
Local Open Scope js_scope.

Definition console_log (c : console) : M unit := emit (Console c).

(** [await model.generateContent(r)] and [result.response.text()] *)
Definition call_provider (p : process) (r : request) : M reply_text :=
  emit (Outbound r) ;; lift (generateContent p r).

Definition res_json (code : Z) (b : value) : M response :=
  ret {| status := code; body := b |}.

Definition outbound_calls (t : list event) : list request :=
  flat_map (fun e => match e with Outbound r => [r] | Console _ => [] end) t.

Definition run {A} (c : M A) : result A * list event := c [].

(** The generation config both files pass. *)
Definition analysis_schema : schema :=
  OBJECT [("score", NUMBER); ("risk", STRING); ("summary", STRING);
          ("sources", ARRAY STRING); ("claimsChecked", NUMBER)]%string
         ["score"; "risk"; "summary"; "sources"; "claimsChecked"]%string.

Definition newline : code_unit := 10%N.

Definition make_request (p : process) (prefix : string) (text : jsstring)
  : request :=
  {| contents := js prefix ++ [newline; newline] ++ text;
     systemInstruction := systemPrompt p;
     googleSearch := true;
     temperature := 2 # 10;
     responseMimeType := "application/json";
     responseSchema := analysis_schema |}.

(** The three assignments after [JSON.parse], the same in both files:
    [a.score = Math.min(10, Math.max(0, a.score || 5));]
    [a.sources = a.sources || [];]
    [a.claimsChecked = a.claimsChecked || 0;] *)
Definition normalize (a : value) : result value :=
  let! s := get_prop a (js "score") in
  let! n := clamp_0_10 (or_else s (num 5)) in
  let! a := set_prop a (js "score") (JNum n) in
  let! src := get_prop a (js "sources") in
  let! a := set_prop a (js "sources") (or_else src empty_array) in
  let! cc := get_prop a (js "claimsChecked") in
  set_prop a (js "claimsChecked") (or_else cc (num 0)).

(** ** [Date.prototype.toISOString] (ECMA-262 21.4.4.36) *)

(** The last [w] decimal digits of [n]. *)
Fixpoint pad (w : nat) (n : Z) : jsstring :=
  match w with
  | O => []
  | S w' => pad w' (n / 10) ++ [Z.to_N (48 + n mod 10)]
  end.

(** Year, month and day of a day number counted from 1970-01-01, in the
    proleptic Gregorian calendar. *)
Definition civil_from_days (day : Z) : Z * Z * Z :=
  let z := day + 719468 in
  let era := z / 146097 in
  let doe := z mod 146097 in
  let yoe := (doe - doe / 1460 + doe / 36524 - doe / 146096) / 365 in
  let doy := doe - (365 * yoe + yoe / 4 - yoe / 100) in
  let mp := (5 * doy + 2) / 153 in
  let d := doy - (153 * mp + 2) / 5 + 1 in
  let m := if mp <? 10 then mp + 3 else mp - 9 in
  let y := yoe + era * 400 + (if m <=? 2 then 1 else 0) in
  (y, m, d).

(** The ISO string of a time value, in milliseconds since the epoch. *)
Definition toISOString (tv : Z) : jsstring :=
  let '(y, m, d) := civil_from_days (tv / 86400000) in
  let ms := tv mod 86400000 in
  (if (0 <=? y) && (y <=? 9999) then pad 4 y
   else js (if 0 <=? y then "+" else "-") ++ pad 6 (Z.abs y))
  ++ js "-" ++ pad 2 m ++ js "-" ++ pad 2 d
  ++ js "T" ++ pad 2 (ms / 3600000)
  ++ js ":" ++ pad 2 (ms / 60000 mod 60)
  ++ js ":" ++ pad 2 (ms / 1000 mod 60)
  ++ js "." ++ pad 3 (ms mod 1000) ++ js "Z".

(** * [src/server.js] *)

Module Server.

(** [app.get('/', ...)] *)
Definition root : M response :=
  res_json 200
    (obj [("service", str "Fact-Checker AI Server");
          ("status", str "running");
          ("version", str "2.0");
          ("endpoints", obj [("health", str "GET /");
                             ("analyze", str "POST /analyze")])]).

(** [app.get('/health', ...)] *)
Definition health (p : process) : M response :=
  res_json 200
    (obj [("status", str "ok");
          ("timestamp", JStr (toISOString (now p)));
          ("model", str "gemini-2.0-flash-exp")]).

(** [!text || typeof text !== 'string' || text.length < 50] *)
Definition invalid_text (text : value) : result bool :=
  if negb (ToBoolean text) then Ok true
  else if negb (typeof_string text) then Ok true
  else let! l := get_prop text (js "length") in less_than l (num 50).

Definition too_short : value :=
  obj [("score", num 5);
       ("risk", str "Medium Risk");
       ("summary", str "Post too short for meaningful analysis.");
       ("sources", empty_array);
       ("claimsChecked", num 0)].

Definition not_configured : value :=
  obj [("error", str "Server configuration error");
       ("score", num 5);
       ("risk", str "Medium Risk");
       ("summary", str "Server not properly configured.");
       ("sources", empty_array);
       ("claimsChecked", num 0)].

Definition analysis_failed : value :=
  obj [("error", str "Analysis failed");
       ("score", num 5);
       ("risk", str "Medium Risk");
       ("summary", str "Could not complete fact-check due to server error.");
       ("sources", empty_array);
       ("claimsChecked", num 0)].

(** The body of the [try] block of [app.post('/analyze', ...)]. *)
Definition analyze_try (p : process) (req_body : value) : M response :=
  text <- lift (get_prop req_body (js "text")) ;;
  invalid <- lift (invalid_text text) ;;
  if invalid then res_json 200 too_short
  else if key_missing p then
    console_log ErrorMissingKey ;;
    res_json 500 not_configured
  else
    truncatedText <- lift (substring text 5000) ;;
    console_log (LogAnalyzing (List.length truncatedText)) ;;
    reply <- call_provider p
               (make_request p "Fact-check this:" truncatedText) ;;
    analysis <- lift (JSON_parse reply) ;;
    analysis <- lift (normalize analysis) ;;
    risk <- lift (get_prop analysis (js "risk")) ;;
    lift (ToString risk) ;;
    score <- lift (get_prop analysis (js "score")) ;;
    lift (ToString score) ;;
    sources <- lift (get_prop analysis (js "sources")) ;;
    n <- lift (get_prop sources (js "length")) ;;
    lift (ToString n) ;;
    console_log (LogVerdict risk score [n]) ;;
    res_json 200 analysis.

(** [app.post('/analyze', async (req, res) => { try ... catch ... })] *)
Definition analyze (p : process) (req_body : value) : M response :=
  try_catch (analyze_try p req_body)
    (fun error =>
       console_log (ErrorFailed error) ;;
       res_json 500 analysis_failed).

(** What the [try] block hands to [res.json] after the provider's answer,
    without the console lines: the exceptions of parsing, of the three
    assignments and of the template literal. *)
Definition checked (answer : result reply_text) : result value :=
  let! reply := answer in
  let! analysis := JSON_parse reply in
  let! analysis := normalize analysis in
  let! risk := get_prop analysis (js "risk") in
  let! _ := ToString risk in
  let! score := get_prop analysis (js "score") in
  let! _ := ToString score in
  let! sources := get_prop analysis (js "sources") in
  let! n := get_prop sources (js "length") in
  let! _ := ToString n in
  Ok analysis.

End Server.

(** * [src/unnamed/part_000] *)

Module Part000.

(** [app.get('/health', ...)] *)
Definition health (p : process) : M response :=
  res_json 200
    (obj [("status", str "ok");
          ("timestamp", JStr (toISOString (now p)));
          ("version", str "2.0");
          ("aiModel", str "gemini-2.0-flash-exp")]).

(** [app.get('/', ...)] *)
Definition root : M response :=
  res_json 200
    (obj [("message", str "Fact-Checker AI Server Running");
          ("endpoints", obj [("health", str "/health");
                             ("analyze", str "/analyze (POST)")])]).

(** [!text || text.length < 50] *)
Definition invalid_text (text : value) : result bool :=
  if negb (ToBoolean text) then Ok true
  else let! l := get_prop text (js "length") in less_than l (num 50).

Definition too_short : value :=
  obj [("error", str "Post too short");
       ("score", num 5);
       ("risk", str "Medium Risk");
       ("summary", str "Post too short for meaningful fact-check.");
       ("sources", empty_array);
       ("claimsChecked", num 0)].

Definition not_configured : value :=
  obj [("error", str "API key not configured");
       ("score", num 5);
       ("risk", str "Medium Risk");
       ("summary", str "Server configuration error. Contact administrator.");
       ("sources", empty_array);
       ("claimsChecked", num 0)].

Definition analysis_failed : value :=
  obj [("error", str "Analysis failed");
       ("score", num 5);
       ("risk", str "Medium Risk");
       ("summary",
        str "Could not complete fact-check. Server error occurred.");
       ("sources", empty_array);
       ("claimsChecked", num 0)].

(** The body of the [try] block of [app.post('/analyze', ...)]. *)
Definition analyze_try (p : process) (req_body : value) : M response :=
  text <- lift (get_prop req_body (js "text")) ;;
  invalid <- lift (invalid_text text) ;;
  if invalid then res_json 200 too_short
  else if key_missing p then
    console_log ErrorMissingKey ;;
    res_json 500 not_configured
  else
    truncatedText <- lift (substring text 5000) ;;
    console_log (LogAnalyzing (List.length truncatedText)) ;;
    reply <- call_provider p
               (make_request p "Fact-check this post:" truncatedText) ;;
    jsonResponse <- lift (JSON_parse reply) ;;
    jsonResponse <- lift (normalize jsonResponse) ;;
    risk <- lift (get_prop jsonResponse (js "risk")) ;;
    lift (ToString risk) ;;
    score <- lift (get_prop jsonResponse (js "score")) ;;
    lift (ToString score) ;;
    console_log (LogVerdict risk score []) ;;
    sources <- lift (get_prop jsonResponse (js "sources")) ;;
    n <- lift (get_prop sources (js "length")) ;;
    nonempty <- lift (less_than (num 0) n) ;;
    (if nonempty then
       lift (join sources) ;;
       console_log (LogSources sources)
     else ret tt) ;;
    res_json 200 jsonResponse.

(** [app.post('/analyze', async (req, res) => { try ... catch ... })] *)
Definition analyze (p : process) (req_body : value) : M response :=
  try_catch (analyze_try p req_body)
    (fun error =>
       console_log (ErrorFailed error) ;;
       res_json 500 analysis_failed).

(** What the [try] block hands to [res.json] after the provider's answer,
    without the console lines. *)
Definition checked (answer : result reply_text) : result value :=
  let! reply := answer in
  let! jsonResponse := JSON_parse reply in
  let! jsonResponse := normalize jsonResponse in
  let! risk := get_prop jsonResponse (js "risk") in
  let! _ := ToString risk in
  let! score := get_prop jsonResponse (js "score") in
  let! _ := ToString score in
  let! sources := get_prop jsonResponse (js "sources") in
  let! n := get_prop sources (js "length") in
  let! nonempty := less_than (num 0) n in
  let! _ := (if nonempty then join sources else Ok tt) in
  Ok jsonResponse.

End Part000.

(** ** Vocabulary of the statements *)

(** The property [k] of [v], [undefined] when there is none to read. *)
Definition field (v : value) (k : string) : value :=
  match get_prop v (js k) with
  | Ok x => x
  | Throw _ => JUndefined
  end.

(** The named properties of an object or an array. *)
Definition own_props (v : value) : option props :=
  match v with
  | JObj ps | JArr _ ps => Some ps
  | _ => None
  end.

Definition own (k : string) (ps : props) : value :=
  match lookup (js k) ps with Some x => x | None => JUndefined end.

Definition with_props (v : value) (ps : props) : value :=
  match v with
  | JArr es _ => JArr es ps
  | JObj _ => JObj ps
  | _ => v
  end.

(** A request body carrying [text]. *)
Definition has_text (req_body text : value) : Prop :=
  get_prop req_body (js "text") = Ok text.

(** Text that passes the input check of [src/server.js]. *)
Definition valid_text (text : value) : Prop :=
  match text with
  | JStr s => (50 <= List.length s)%nat
  | _ => False
  end.

(** The five fields of an AnalysisResult, with their types. *)
Definition fully_shaped (b : value) : Prop :=
  (exists n, field b "score" = JNum n) /\
  (exists s, field b "risk" = JStr s) /\
  (exists s, field b "summary" = JStr s) /\
  (exists es, field b "sources" = JArr es []) /\
  (exists n, field b "claimsChecked" = JNum n).

Definition is_string (v : value) : Prop :=
  match v with JStr _ => True | _ => False end.

(** A reply whose [risk] and [sources] have the types of the response
    schema, when present. *)
Definition risk_and_sources_typed (v : value) : Prop :=
  (field v "risk" = JUndefined \/ is_string (field v "risk")) /\
  (field v "sources" = JUndefined \/
   exists es, field v "sources" = JArr es [] /\ Forall is_string es).

(** A reply whose score, or the default 5 in place of a falsy one, is
    turned into a number by the conversion of [Math.max]. *)
Definition score_converts (v : value) : Prop :=
  ToNumber (or_else (field v "score") (num 5)) <> Ok NaN.

(** The response a handler sends. *)
Definition answers (c : M response) (resp : response) : Prop :=
  fst (run c) = Ok resp.

(** The provider's reply to [r] parses to [v]. *)
Definition replies (p : process) (r : request) (v : value) : Prop :=
  generateContent p r = Ok (JSON v).

(** The provider's reply to the request made for the text [s], in either
    file, parses to [v]. *)
Definition replied (p : process) (s : jsstring) (v : value) : Prop :=
  replies p (make_request p "Fact-check this:" (substring0 s 5000)) v /\
  replies p (make_request p "Fact-check this post:" (substring0 s 5000)) v.

(** The provider's call throws, or its reply is not JSON. *)
Definition fails (p : process) (r : request) : Prop :=
  (exists e, generateContent p r = Throw e) \/ generateContent p r = Ok NotJSON.

(** A reply that is an object whose [score], [risk] and [sources] have the
    types of the response schema, when present. *)
Definition typed_reply (v : value) : Prop :=
  (exists ps, v = JObj ps) /\
  (field v "score" = JUndefined \/ exists n, field v "score" = JNum n) /\
  risk_and_sources_typed v.

(** [b] is the reply [v] after the three assignments: the same [risk],
    and the same value under every name other than the three assigned. *)
Definition passes_through (v b : value) : Prop :=
  normalize v = Ok b /\
  field b "risk" = field v "risk" /\
  (forall k, k <> js "score" -> k <> js "sources" ->
             k <> js "claimsChecked" -> get_prop b k = get_prop v k).

(** A reply that supplies a string risk and a string summary, and whose
    sources and claimsChecked are missing (falsy) or have the types of the
    schema. *)
Definition supplies_all_fields (v : value) : Prop :=
  is_string (field v "risk") /\
  is_string (field v "summary") /\
  (ToBoolean (field v "sources") = false
   \/ exists es, field v "sources" = JArr es []) /\
  (ToBoolean (field v "claimsChecked") = false
   \/ exists n, field v "claimsChecked" = JNum n).

(** A response that is whole: a body with all five fields, or under 200
    the provider's reply after the three assignments, which holds a Number
    score, truthy sources and a claimsChecked that is truthy or 0, and has
    all five fields whenever the reply supplied the others. *)
Definition complete (p : process) (resp : response) : Prop :=
  fully_shaped (body resp)
  \/ (status resp = 200 /\
      exists r v,
        replies p r v /\ normalize v = Ok (body resp)
        /\ (exists n, field (body resp) "score" = JNum n)
        /\ ToBoolean (field (body resp) "sources") = true
        /\ (ToBoolean (field (body resp) "claimsChecked") = true
            \/ field (body resp) "claimsChecked" = num 0)
        /\ (supplies_all_fields v -> fully_shaped (body resp))).

(** ** Sample inputs *)

Definition long_text : jsstring := repeat 97%N 60.

(** 5001 code units. *)
Definition overlong_text : jsstring := repeat 97%N 5000 ++ [98%N].

Definition post (text : value) : value := obj [("text", text)].

Definition configured (answer : result reply_text) : process :=
  {| GEMINI_API_KEY := Some (js "key");
     systemPrompt := js "prompt";
     generateContent := fun _ => answer;
     now := 1730534400123 |}.

Definition unconfigured : process :=
  {| GEMINI_API_KEY := None;
     systemPrompt := js "prompt";
     generateContent := fun _ => Ok NotJSON;
     now := 0 |}.

Definition reply_with (score sources : value) : value :=
  obj [("score", score);
       ("risk", str "Trustworthy");
       ("summary", str "Confirmed by Reuters.");
       ("sources", sources);
       ("claimsChecked", num 3)].

Definition reuters : value := JArr [str "Reuters"] [].

(** ** Vocabulary of the runs *)

(** The lines written with [console.error]. *)
Definition is_console_error (e : event) : bool :=
  match e with
  | Console ErrorMissingKey | Console (ErrorFailed _) => true
  | _ => false
  end.

Definition console_errors (t : list event) : list event :=
  filter is_console_error t.

(** Effects that are neither a call nor an error line. *)
Definition quiet (t : list event) : Prop :=
  outbound_calls t = [] /\ console_errors t = [].

(** The effects every analysis starts with: the line with the length of
    the truncated text, then the call. *)
Definition opening (p : process) (prefix : string) (s : jsstring)
  : list event :=
  [Console (LogAnalyzing (List.length (substring0 s 5000)));
   Outbound (make_request p prefix (substring0 s 5000))].

(** The four ways a run of [POST /analyze] ends, for a handler with the
    given canned bodies and prefix: the short circuit, the missing key,
    an exception before the call, and an analysis, which ends in the catch
    block or in a 200. *)
Definition run_cases (too_short not_configured failed : value)
    (prefix : string) (c : M response) (p : process) (req_body : value)
  : Prop :=
  run c = (Ok {| status := 200; body := too_short |}, [])
  \/ (key_missing p = true /\
      run c = (Ok {| status := 500; body := not_configured |},
               [Console ErrorMissingKey]))
  \/ (exists e,
        run c = (Ok {| status := 500; body := failed |},
                 [Console (ErrorFailed e)]))
  \/ (key_missing p = false /\
      exists s resp tail,
        has_text req_body (JStr s) /\ (50 <= List.length s)%nat /\
        run c = (Ok resp, opening p prefix s ++ tail) /\
        ((exists e pre, tail = pre ++ [Console (ErrorFailed e)] /\ quiet pre
                        /\ resp = {| status := 500; body := failed |})
         \/ (quiet tail /\ status resp = 200))).

(** The request [r] is the one made for a valid text read off the body. *)
Definition made_for (p : process) (prefix : string) (req_body : value)
    (r : request) : Prop :=
  exists s, has_text req_body (JStr s)
            /\ (50 <= List.length s)%nat
            /\ r = make_request p prefix (substring0 s 5000).

(** A process whose key is set to the empty string. *)
Definition empty_key (answer : result reply_text) : process :=
  {| GEMINI_API_KEY := Some [];
     systemPrompt := js "prompt";
     generateContent := fun _ => answer;
     now := 0 |}.

(** * Properties *)

(** ** The runtime *)

Lemma jsstring_eqb_eq (a b : jsstring) : jsstring_eqb a b = true <-> a = b.
Proof.
  revert b; induction a as [|x a IH]; destruct b as [|y b]; simpl;
    try (split; [discriminate | congruence]); try tauto.
  rewrite andb_true_iff, N.eqb_eq, IH.
  split; [intros [-> ->]; reflexivity | intros E; inversion E; auto].
Qed.

Lemma jsstring_eqb_refl (a : jsstring) : jsstring_eqb a a = true.
Proof. apply jsstring_eqb_eq; reflexivity. Qed.

Lemma jsstring_eqb_neq (a b : jsstring) : a <> b -> jsstring_eqb a b = false.
Proof.
  intros N; destruct (jsstring_eqb a b) eqn:E; [|reflexivity].
  apply jsstring_eqb_eq in E; contradiction.
Qed.

Lemma lookup_assign_same k v ps : lookup k (assign k v ps) = Some v.
Proof.
  induction ps as [|[k' v'] ps IH]; simpl.
  - rewrite jsstring_eqb_refl; reflexivity.
  - destruct (jsstring_eqb k k') eqn:E; simpl; rewrite E; auto.
Qed.

Lemma lookup_assign_other k k' v ps :
  k <> k' -> lookup k (assign k' v ps) = lookup k ps.
Proof.
  intros N; induction ps as [|[k0 v0] ps IH]; simpl.
  - rewrite (jsstring_eqb_neq N); reflexivity.
  - destruct (jsstring_eqb k' k0) eqn:E; simpl.
    + apply jsstring_eqb_eq in E; subst k0.
      rewrite (jsstring_eqb_neq N); reflexivity.
    + destruct (jsstring_eqb k k0); auto.
Qed.

Lemma num_ltb_of_Z a b : num_ltb (num_of_Z a) (num_of_Z b) = (a <? b).
Proof.
  unfold num_of_Z, num_ltb, Qcompare, inject_Z; simpl.
  rewrite !Z.mul_1_r. unfold Z.ltb. destruct (a ?= b); reflexivity.
Qed.

(** [Math.min(10, Math.max(0, x))] by the position of [x]. *)
Lemma clamp_Fin q :
  Math_min (Fin 10) (Math_max (Fin 0) (Fin q)) =
    if Qle_bool q 0 then Fin 0
    else if Qle_bool 10 q then Fin 10
    else Fin q.
Proof.
  unfold Math_min, Math_max, num_ltb.
  destruct (Qle_bool q 0) eqn:L0.
  - apply Qle_bool_iff in L0.
    destruct (Qcompare_spec 0 q) as [E|L|G]; try reflexivity.
    exfalso; apply (Qlt_irrefl 0); eapply Qlt_le_trans; eauto.
  - assert (P : (0 < q)%Q).
    { apply Qnot_le_lt; intros C; apply Qle_bool_iff in C; congruence. }
    rewrite (proj1 (Qlt_alt 0 q) P).
    destruct (Qle_bool 10 q) eqn:L10.
    + apply Qle_bool_iff in L10.
      destruct (Qcompare_spec q 10) as [E|L|G]; try reflexivity.
      exfalso; apply (Qlt_irrefl q); eapply Qlt_le_trans; eauto.
    + assert (P' : (q < 10)%Q).
      { apply Qnot_le_lt; intros C; apply Qle_bool_iff in C; congruence. }
      rewrite (proj1 (Qlt_alt q 10) P'); reflexivity.
Qed.

Lemma clamp_in_range x :
  x <> NaN -> in_0_10 (Math_min (Fin 10) (Math_max (Fin 0) x)).
Proof.
  destruct x as [| | |q]; intros N; try congruence.
  - simpl; split; discriminate.
  - simpl; split; discriminate.
  - rewrite clamp_Fin.
    destruct (Qle_bool q 0) eqn:L0; [simpl; split; discriminate|].
    destruct (Qle_bool 10 q) eqn:L10; [simpl; split; discriminate|].
    simpl; split; apply Qlt_le_weak, Qnot_le_lt; intros C;
      apply Qle_bool_iff in C; congruence.
Qed.


(** ** The input check *)

Lemma less_than_length_50 (s : jsstring) :
  less_than (JNum (num_of_nat (List.length s))) (num 50)
  = Ok (Z.of_nat (List.length s) <? 50).
Proof.
  unfold less_than, num, num_of_nat, ToNumber, and_then.
  rewrite num_ltb_of_Z; reflexivity.
Qed.

Lemma Server_invalid_text_valid text :
  valid_text text -> Server.invalid_text text = Ok false.
Proof.
  destruct text as [| | | |s| |]; simpl; try tauto.
  intros V. destruct s as [|c s]; [simpl in V; lia|].
  unfold Server.invalid_text.
  change (ToBoolean (JStr (c :: s))) with true; simpl negb; cbv iota.
  unfold get_prop; rewrite jsstring_eqb_refl.
  unfold and_then; rewrite less_than_length_50.
  f_equal; apply Z.ltb_ge; lia.
Qed.

Lemma Server_invalid_text_invalid text :
  ~ valid_text text -> Server.invalid_text text = Ok true.
Proof.
  destruct text as [| |b|n|s|es ps|ps]; intros V;
    try (unfold Server.invalid_text;
         match goal with |- context [ToBoolean ?v] => destruct (ToBoolean v) end;
         reflexivity).
  destruct s as [|c s]; [reflexivity|].
  unfold Server.invalid_text.
  change (ToBoolean (JStr (c :: s))) with true; simpl negb; cbv iota.
  unfold get_prop; rewrite jsstring_eqb_refl.
  unfold and_then; rewrite less_than_length_50.
  f_equal; apply Z.ltb_lt; unfold valid_text in V; lia.
Qed.

Lemma Part000_invalid_text_string s :
  Part000.invalid_text (JStr s) = Ok (Nat.ltb (List.length s) 50).
Proof.
  unfold Part000.invalid_text.
  destruct s as [|c s]; [reflexivity|].
  change (ToBoolean (JStr (c :: s))) with true; simpl negb; cbv iota.
  unfold get_prop; rewrite jsstring_eqb_refl.
  unfold and_then; rewrite less_than_length_50.
  f_equal.
  destruct (Nat.ltb_spec (List.length (c :: s)) 50);
    [apply Z.ltb_lt | apply Z.ltb_ge]; lia.
Qed.

Lemma Part000_invalid_text_falsy text :
  ToBoolean text = false -> Part000.invalid_text text = Ok true.
Proof. intros F; unfold Part000.invalid_text; rewrite F; reflexivity. Qed.

(** ** The paths of the handlers *)

Ltac unfold_handler :=
  unfold run, Server.analyze, Server.analyze_try, Part000.analyze,
    Part000.analyze_try, try_catch, call_provider, console_log, res_json,
    bind, lift, emit, ret.

(** With valid text and a key, [src/server.js] makes one call and answers
    by what comes back. *)
Lemma Server_analyze_called p req_body s :
  key_missing p = false ->
  has_text req_body (JStr s) ->
  (50 <= List.length s)%nat ->
  let r := make_request p "Fact-check this:" (substring0 s 5000) in
  fst (run (Server.analyze p req_body))
    = Ok (match Server.checked (generateContent p r) with
          | Ok a => {| status := 200; body := a |}
          | Throw _ => {| status := 500; body := Server.analysis_failed |}
          end)
  /\ outbound_calls (snd (run (Server.analyze p req_body))) = [r].
Proof.
  intros K T V. set (t := substring0 s 5000). intros r.
  unfold_handler. rewrite T.
  rewrite (@Server_invalid_text_valid (JStr s)) by exact V.
  rewrite K. cbv iota. unfold substring. cbv iota. fold t. fold r.
  clearbody r t. unfold Server.checked.
  destruct (generateContent p r) as [[|v]|e]; simpl; auto.
  destruct (normalize v) as [a|e]; simpl; auto.
  destruct (get_prop a (js "risk")) as [x|e]; simpl; auto.
  destruct (ToString x) as [[]|e]; simpl; auto.
  destruct (get_prop a (js "score")) as [y|e]; simpl; auto.
  destruct (ToString y) as [[]|e]; simpl; auto.
  destruct (get_prop a (js "sources")) as [z|e]; simpl; auto.
  destruct (get_prop z (js "length")) as [n|e]; simpl; auto.
  destruct (ToString n) as [[]|e]; simpl; auto.
Qed.

(** The same for [src/unnamed/part_000]. *)
Lemma Part000_analyze_called p req_body s :
  key_missing p = false ->
  has_text req_body (JStr s) ->
  (50 <= List.length s)%nat ->
  let r := make_request p "Fact-check this post:" (substring0 s 5000) in
  fst (run (Part000.analyze p req_body))
    = Ok (match Part000.checked (generateContent p r) with
          | Ok a => {| status := 200; body := a |}
          | Throw _ => {| status := 500; body := Part000.analysis_failed |}
          end)
  /\ outbound_calls (snd (run (Part000.analyze p req_body))) = [r].
Proof.
  intros K T V. set (t := substring0 s 5000). intros r.
  unfold_handler. rewrite T.
  rewrite Part000_invalid_text_string.
  replace (Nat.ltb (List.length s) 50) with false
    by (symmetry; apply Nat.ltb_ge; exact V).
  rewrite K. cbv iota. unfold substring. cbv iota. fold t. fold r.
  clearbody r t. unfold Part000.checked.
  destruct (generateContent p r) as [[|v]|e]; simpl; auto.
  destruct (normalize v) as [a|e]; simpl; auto.
  destruct (get_prop a (js "risk")) as [x|e]; simpl; auto.
  destruct (ToString x) as [[]|e]; simpl; auto.
  destruct (get_prop a (js "score")) as [y|e]; simpl; auto.
  destruct (ToString y) as [[]|e]; simpl; auto.
  destruct (get_prop a (js "sources")) as [z|e]; simpl; auto.
  destruct (get_prop z (js "length")) as [n|e]; simpl; auto.
  destruct (less_than (num 0) n) as [[|]|e]; simpl; auto.
  destruct (join z) as [[]|e]; simpl; auto.
Qed.

(** Every run of [POST /analyze] in [src/server.js] ends in one of four
    responses. *)
Lemma Server_analyze_paths p req_body :
  exists resp,
    fst (run (Server.analyze p req_body)) = Ok resp /\
    (resp = {| status := 200; body := Server.too_short |}
     \/ resp = {| status := 500; body := Server.not_configured |}
     \/ resp = {| status := 500; body := Server.analysis_failed |}
     \/ exists r a, Server.checked (generateContent p r) = Ok a
                    /\ resp = {| status := 200; body := a |}).
Proof.
  destruct (get_prop req_body (js "text")) as [text|e] eqn:T.
  2:{ eexists; split; [unfold_handler; rewrite T; reflexivity|auto]. }
  assert (D : valid_text text \/ ~ valid_text text).
  { destruct text; simpl; try tauto.
    destruct (le_lt_dec 50 (List.length s)); [left|right]; lia. }
  destruct D as [V|V].
  - destruct text as [| | | |s| |]; simpl in V; try tauto.
    destruct (key_missing p) eqn:K.
    + eexists; split; [|right; left; reflexivity].
      unfold_handler. rewrite T.
      rewrite (@Server_invalid_text_valid (JStr s)) by exact V.
      rewrite K; reflexivity.
    + destruct (Server_analyze_called p K T V) as [R _].
      eexists; split; [exact R|].
      destruct (Server.checked _) eqn:C; [|auto].
      right; right; right; eauto.
  - eexists; split; [|left; reflexivity].
    unfold_handler. rewrite T.
    rewrite (Server_invalid_text_invalid text V); reflexivity.
Qed.

Lemma Part000_analyze_paths p req_body :
  exists resp,
    fst (run (Part000.analyze p req_body)) = Ok resp /\
    (resp = {| status := 200; body := Part000.too_short |}
     \/ resp = {| status := 500; body := Part000.not_configured |}
     \/ resp = {| status := 500; body := Part000.analysis_failed |}
     \/ exists r a, Part000.checked (generateContent p r) = Ok a
                    /\ resp = {| status := 200; body := a |}).
Proof.
  destruct (get_prop req_body (js "text")) as [text|e] eqn:T.
  2:{ eexists; split; [unfold_handler; rewrite T; reflexivity|auto]. }
  destruct (Part000.invalid_text text) as [[|]|e] eqn:I.
  - eexists; split; [unfold_handler; rewrite T, I; reflexivity|auto].
  - destruct (key_missing p) eqn:K.
    { eexists; split; [unfold_handler; rewrite T, I, K; reflexivity|auto]. }
    destruct text as [| |b|n|s|es ps|ps];
      try (eexists; split;
           [unfold_handler; rewrite T, I, K; reflexivity|auto]).
    rewrite Part000_invalid_text_string in I.
    assert (V : (50 <= List.length s)%nat).
    { apply Nat.ltb_ge; congruence. }
    destruct (Part000_analyze_called p K T V) as [R _].
    eexists; split; [exact R|].
    destruct (Part000.checked _) eqn:C; [|auto].
    right; right; right; eauto.
  - eexists; split; [unfold_handler; rewrite T, I; reflexivity|auto].
Qed.

(** ** The three assignments *)

Lemma normalize_spec a :
  normalize a =
    match own_props a with
    | None => Throw TypeError
    | Some ps =>
        let! n := clamp_0_10 (or_else (own "score" ps) (num 5)) in
        Ok (with_props a
              (assign (js "claimsChecked")
                 (or_else (own "claimsChecked" ps) (num 0))
                 (assign (js "sources")
                    (or_else (own "sources" ps) empty_array)
                    (assign (js "score") (JNum n) ps))))
    end.
Proof.
  destruct a as [| |b|n|s|es ps|ps]; try reflexivity.
  - unfold normalize, own_props, with_props, own.
    change (get_prop (JArr es ps) (js "score"))
      with (Ok (match lookup (js "score") ps with
                | Some x => x | None => JUndefined end) : result value).
    unfold and_then at 1.
    destruct (clamp_0_10 _) as [m|e]; [|reflexivity].
    cbn [and_then set_prop].
    change (get_prop (JArr es ?q) (js "sources"))
      with (Ok (match lookup (js "sources") q with
                | Some x => x | None => JUndefined end) : result value).
    cbn [and_then set_prop].
    change (get_prop (JArr es ?q) (js "claimsChecked"))
      with (Ok (match lookup (js "claimsChecked") q with
                | Some x => x | None => JUndefined end) : result value).
    cbn [and_then set_prop].
    rewrite !lookup_assign_other by discriminate. reflexivity.
  - unfold normalize, own_props, with_props, own.
    cbn [get_prop and_then].
    destruct (clamp_0_10 _) as [m|e]; [|reflexivity].
    cbn [and_then set_prop get_prop].
    rewrite !lookup_assign_other by discriminate. reflexivity.
Qed.

Lemma field_own a ps k :
  own_props a = Some ps -> k <> "length" -> field a k = own k ps.
Proof.
  intros O N. unfold field, own.
  destruct a; simpl in O; try discriminate; inversion O; subst; simpl;
    [|reflexivity].
  rewrite jsstring_eqb_neq; [reflexivity|].
  intros E; apply N.
  apply (f_equal (fun l => string_of_list_ascii (List.map ascii_of_N l))) in E.
  unfold js in E. rewrite !map_map in E.
  rewrite !(map_ext _ (fun a => a)) in E by apply ascii_N_embedding.
  rewrite !map_id, !string_of_list_ascii_of_string in E. exact E.
Qed.

(** What [normalize] leaves in the three fields, and that it touches no
    other property. *)
Lemma normalize_fields a a' :
  normalize a = Ok a' ->
  (exists n, clamp_0_10 (or_else (field a "score") (num 5)) = Ok n
             /\ field a' "score" = JNum n)
  /\ field a' "sources" = or_else (field a "sources") empty_array
  /\ field a' "claimsChecked" = or_else (field a "claimsChecked") (num 0)
  /\ (forall k, k <> js "score" -> k <> js "sources" ->
                k <> js "claimsChecked" -> get_prop a' k = get_prop a k).
Proof.
  rewrite normalize_spec.
  destruct (own_props a) as [ps|] eqn:O; [|discriminate].
  rewrite !(field_own _ O) by discriminate.
  destruct (clamp_0_10 _) as [n|e] eqn:C; [|discriminate].
  cbn [and_then]. intros E; inversion E; subst a'; clear E.
  set (ps' := assign _ _ _).
  assert (O' : own_props (with_props a ps') = Some ps')
    by (destruct a; simpl in O; try discriminate; reflexivity).
  rewrite !(field_own _ O') by discriminate.
  unfold own, ps'.
  repeat split.
  - exists n; split; [reflexivity|].
    rewrite !lookup_assign_other by discriminate.
    rewrite lookup_assign_same; reflexivity.
  - rewrite lookup_assign_other by discriminate.
    rewrite lookup_assign_same; reflexivity.
  - rewrite lookup_assign_same; reflexivity.
  - intros k N1 N2 N3.
    destruct a; simpl in O; try discriminate; inversion O; subst;
      unfold with_props, get_prop;
      rewrite !lookup_assign_other by assumption; reflexivity.
Qed.

(** ** Degenerate input *)

(** C1, as amended.  For every [/analyze] request whose text is missing,
    not a string, or shorter than 50 characters, [src/server.js] answers
    200 with exactly score 5, risk "Medium Risk", the summary "Post too
    short for meaningful analysis.", empty sources and claimsChecked 0, and
    makes no outbound call.  [src/unnamed/part_000] does so when the text
    is missing, falsy or a short string, and its body carries an error
    marker "Post too short" and the summary "Post too short for meaningful
    fact-check." *)
Theorem short_text_short_circuits p req_body text :
  has_text req_body text ->
  ~ valid_text text ->
  (answers (Server.analyze p req_body)
     {| status := 200;
        body := obj [("score", num 5);
                     ("risk", str "Medium Risk");
                     ("summary", str "Post too short for meaningful analysis.");
                     ("sources", empty_array);
                     ("claimsChecked", num 0)] |}
   /\ outbound_calls (snd (run (Server.analyze p req_body))) = [])
  /\ (ToBoolean text = false \/ is_string text ->
      answers (Part000.analyze p req_body)
        {| status := 200;
           body := obj [("error", str "Post too short");
                        ("score", num 5);
                        ("risk", str "Medium Risk");
                        ("summary",
                         str "Post too short for meaningful fact-check.");
                        ("sources", empty_array);
                        ("claimsChecked", num 0)] |}
      /\ outbound_calls (snd (run (Part000.analyze p req_body))) = []).
Proof.
  intros T V. split.
  - unfold answers; unfold_handler. rewrite T.
    rewrite (Server_invalid_text_invalid text V). split; reflexivity.
  - intros F.
    assert (I : Part000.invalid_text text = Ok true).
    { destruct F as [F|S]; [apply Part000_invalid_text_falsy; exact F|].
      destruct text as [| | | |s| |]; simpl in S; try tauto.
      rewrite Part000_invalid_text_string. f_equal.
      apply Nat.ltb_lt. unfold valid_text in V. lia. }
    unfold answers; unfold_handler. rewrite T, I. split; reflexivity.
Qed.

Lemma short_text_short_circuits_witness :
  has_text (post (str "")) (str "") /\ ~ valid_text (str "") /\
  answers (Server.analyze unconfigured (post (str "")))
    {| status := 200; body := Server.too_short |} /\
  answers (Part000.analyze unconfigured (post (str "")))
    {| status := 200; body := Part000.too_short |}.
Proof.
  assert (T : has_text (post (str "")) (str "")) by reflexivity.
  assert (V : ~ valid_text (str "")) by (simpl; lia).
  destruct (short_text_short_circuits unconfigured T V) as [[A _] B].
  destruct (B (or_introl eq_refl)) as [A' _].
  exact (conj T (conj V (conj A A'))).
Defined.

(** C1 as stated fails on [src/unnamed/part_000]: for text = "" the body
    is not the one claimed, and a number for text passes the check and
    ends in the catch block. *)
Lemma short_text_part_000_differs :
  ~ answers (Part000.analyze unconfigured (post (str "")))
      {| status := 200;
         body := obj [("score", num 5);
                      ("risk", str "Medium Risk");
                      ("summary",
                       str "Post too short for meaningful analysis.");
                      ("sources", empty_array);
                      ("claimsChecked", num 0)] |}
  /\ answers (Part000.analyze (configured (Ok (JSON (reply_with (num 9) reuters))))
                (post (num 12345)))
       {| status := 500; body := Part000.analysis_failed |}.
Proof.
  split.
  - unfold answers. vm_compute. intros E. inversion E.
  - reflexivity.
Qed.

(** ** Missing credential *)

(** C3, as amended.  When [GEMINI_API_KEY] is absent, every [/analyze]
    call whose text passes the input check (a string of at least 50
    characters) is answered 500 with an error marker and score 5, risk
    "Medium Risk", empty sources, claimsChecked 0, and no outbound call is
    made.  The input check comes first: shorter text gets the 200 of C1. *)
Theorem missing_key_is_server_error p req_body s :
  GEMINI_API_KEY p = None ->
  has_text req_body (JStr s) ->
  (50 <= List.length s)%nat ->
  (answers (Server.analyze p req_body)
     {| status := 500;
        body := obj [("error", str "Server configuration error");
                     ("score", num 5);
                     ("risk", str "Medium Risk");
                     ("summary", str "Server not properly configured.");
                     ("sources", empty_array);
                     ("claimsChecked", num 0)] |}
   /\ outbound_calls (snd (run (Server.analyze p req_body))) = [])
  /\ (answers (Part000.analyze p req_body)
        {| status := 500;
           body := obj [("error", str "API key not configured");
                        ("score", num 5);
                        ("risk", str "Medium Risk");
                        ("summary",
                         str "Server configuration error. Contact administrator.");
                        ("sources", empty_array);
                        ("claimsChecked", num 0)] |}
      /\ outbound_calls (snd (run (Part000.analyze p req_body))) = []).
Proof.
  intros K T V.
  assert (M : key_missing p = true) by (unfold key_missing; rewrite K; reflexivity).
  split; unfold answers; unfold_handler; rewrite T.
  - rewrite (@Server_invalid_text_valid (JStr s)) by exact V.
    rewrite M. split; reflexivity.
  - rewrite Part000_invalid_text_string.
    replace (Nat.ltb (List.length s) 50) with false
      by (symmetry; apply Nat.ltb_ge; exact V).
    rewrite M. split; reflexivity.
Qed.

Lemma long_text_valid : (50 <= List.length long_text)%nat.
Proof. unfold long_text; rewrite repeat_length; lia. Qed.

Lemma missing_key_is_server_error_witness :
  GEMINI_API_KEY unconfigured = None /\
  has_text (post (JStr long_text)) (JStr long_text) /\
  (50 <= List.length long_text)%nat /\
  answers (Server.analyze unconfigured (post (JStr long_text)))
    {| status := 500; body := Server.not_configured |} /\
  answers (Part000.analyze unconfigured (post (JStr long_text)))
    {| status := 500; body := Part000.not_configured |}.
Proof.
  assert (T : has_text (post (JStr long_text)) (JStr long_text))
    by reflexivity.
  destruct (missing_key_is_server_error unconfigured (eq_refl : GEMINI_API_KEY unconfigured = None) T long_text_valid)
    as [[A _] [B _]].
  exact (conj eq_refl (conj T (conj long_text_valid (conj A B)))).
Defined.

(** C3 as stated fails: without a key, text = "" is answered 200. *)
Lemma missing_key_short_text_is_200 :
  GEMINI_API_KEY unconfigured = None /\
  answers (Server.analyze unconfigured (post (str "")))
    {| status := 200; body := Server.too_short |} /\
  answers (Part000.analyze unconfigured (post (str "")))
    {| status := 200; body := Part000.too_short |}.
Proof. repeat split. Qed.

(** ** Failures of the provider *)

Lemma Server_checked_fails p r :
  fails p r -> exists e, Server.checked (generateContent p r) = Throw e.
Proof. intros [[e ->]| ->]; eexists; reflexivity. Qed.

Lemma Part000_checked_fails p r :
  fails p r -> exists e, Part000.checked (generateContent p r) = Throw e.
Proof. intros [[e ->]| ->]; eexists; reflexivity. Qed.

Lemma Server_checked_Ok answer a :
  Server.checked answer = Ok a ->
  exists v, answer = Ok (JSON v) /\ normalize v = Ok a.
Proof.
  unfold Server.checked.
  destruct answer as [[|v]|e]; simpl; try discriminate.
  destruct (normalize v) as [a'|e] eqn:N; simpl; [|discriminate].
  intros H; exists v; split; [reflexivity|].
  repeat match type of H with
         | and_then ?x _ = _ => destruct x; simpl in H; try discriminate
         end.
  congruence.
Qed.

Lemma Part000_checked_Ok answer a :
  Part000.checked answer = Ok a ->
  exists v, answer = Ok (JSON v) /\ normalize v = Ok a.
Proof.
  unfold Part000.checked.
  destruct answer as [[|v]|e]; simpl; try discriminate.
  destruct (normalize v) as [a'|e] eqn:N; simpl; [|discriminate].
  intros H; exists v; split; [reflexivity|].
  repeat match type of H with
         | and_then ?x _ = _ => destruct x; simpl in H; try discriminate
         end.
  congruence.
Qed.

Lemma canned_fully_shaped :
  fully_shaped Server.too_short /\ fully_shaped Server.not_configured /\
  fully_shaped Server.analysis_failed /\ fully_shaped Part000.too_short /\
  fully_shaped Part000.not_configured /\ fully_shaped Part000.analysis_failed.
Proof. repeat split; eexists; reflexivity. Qed.

(** The reply after the three assignments is whole. *)
Lemma normalized_complete p r v a :
  replies p r v -> normalize v = Ok a ->
  complete p {| status := 200; body := a |}.
Proof.
  intros G N. right. split; [reflexivity|]. exists r, v.
  cbn [body]. split; [exact G|]. split; [exact N|].
  destruct (normalize_fields v N) as ((n & _ & Fs) & Fsrc & Fcc & Frame).
  split; [exists n; exact Fs|].
  split; [|split].
  - rewrite Fsrc. unfold or_else.
    destruct (ToBoolean (field v "sources")) eqn:B; [exact B|reflexivity].
  - rewrite Fcc. unfold or_else.
    destruct (ToBoolean (field v "claimsChecked")) eqn:B;
      [left; exact B|right; reflexivity].
  - intros (Rk & Sm & So & Cc).
    assert (Er : field a "risk" = field v "risk")
      by (unfold field; rewrite Frame by discriminate; reflexivity).
    assert (Es : field a "summary" = field v "summary")
      by (unfold field; rewrite Frame by discriminate; reflexivity).
    split; [exists n; exact Fs|].
    split; [rewrite Er; destruct (field v "risk"); simpl in Rk;
            try contradiction; eexists; reflexivity|].
    split; [rewrite Es; destruct (field v "summary"); simpl in Sm;
            try contradiction; eexists; reflexivity|].
    split.
    + rewrite Fsrc. unfold or_else. destruct So as [B|(es & E)].
      * rewrite B. exists []; reflexivity.
      * rewrite E. exists es; reflexivity.
    + rewrite Fcc. unfold or_else. destruct Cc as [B|(m & E)].
      * rewrite B. eexists; reflexivity.
      * rewrite E. destruct (ToBoolean (JNum m)); eexists; reflexivity.
Qed.

(** No run of either handler ends in an exception, and every response is
    complete. *)
Lemma analyze_never_throws p req_body :
  (exists resp, answers (Server.analyze p req_body) resp /\ complete p resp)
  /\ (exists resp, answers (Part000.analyze p req_body) resp
                    /\ complete p resp).
Proof.
  destruct canned_fully_shaped as (F1 & F2 & F3 & F4 & F5 & F6).
  split.
  - destruct (Server_analyze_paths p req_body)
      as (resp & A & [->|[->|[->|(r & a & C & ->)]]]);
      eexists; (split; [exact A|]); try (left; assumption).
    destruct (Server_checked_Ok _ C) as (v & G & N).
    exact (normalized_complete G N).
  - destruct (Part000_analyze_paths p req_body)
      as (resp & A & [->|[->|[->|(r & a & C & ->)]]]);
      eexists; (split; [exact A|]); try (left; assumption).
    destruct (Part000_checked_Ok _ C) as (v & G & N).
    exact (normalized_complete G N).
Qed.

(** C4, as amended.  Whenever the external call throws or its reply does
    not parse as JSON, the handler catches the exception and answers 500
    with the canned failure: an error marker, score 5, risk "Medium Risk",
    a generic summary, empty sources and claimsChecked 0, which has all
    five fields of an AnalysisResult.  The handler never propagates an
    exception: on every request it sends a response.  That response is a
    canned body with all five fields or, under 200, the provider's reply
    after the three assignments: it always holds a Number score, truthy
    sources and a claimsChecked that is truthy or 0, and it has all five
    fields whenever the reply supplied a string risk and a string summary
    (with sources and claimsChecked missing or of the schema's types). *)
Theorem provider_failure_is_caught p req_body s :
  key_missing p = false ->
  has_text req_body (JStr s) ->
  (50 <= List.length s)%nat ->
  (fails p (make_request p "Fact-check this:" (substring0 s 5000)) ->
   answers (Server.analyze p req_body)
     {| status := 500;
        body := obj [("error", str "Analysis failed");
                     ("score", num 5);
                     ("risk", str "Medium Risk");
                     ("summary",
                      str "Could not complete fact-check due to server error.");
                     ("sources", empty_array);
                     ("claimsChecked", num 0)] |})
  /\ (fails p (make_request p "Fact-check this post:" (substring0 s 5000)) ->
      answers (Part000.analyze p req_body)
        {| status := 500;
           body := obj [("error", str "Analysis failed");
                        ("score", num 5);
                        ("risk", str "Medium Risk");
                        ("summary",
                         str "Could not complete fact-check. Server error occurred.");
                        ("sources", empty_array);
                        ("claimsChecked", num 0)] |})
  /\ fully_shaped Server.analysis_failed
  /\ fully_shaped Part000.analysis_failed
  /\ (forall p' req_body',
        (exists resp, answers (Server.analyze p' req_body') resp
                      /\ complete p' resp) /\
        (exists resp, answers (Part000.analyze p' req_body') resp
                      /\ complete p' resp)).
Proof.
  intros K T V.
  split; [|split; [|split; [|split]]];
    try (repeat split; eexists; reflexivity);
    try apply analyze_never_throws.
  - intros F. destruct (Server_analyze_called p K T V) as [R _].
    destruct (Server_checked_fails F) as [e C].
    unfold answers. rewrite R, C. reflexivity.
  - intros F. destruct (Part000_analyze_called p K T V) as [R _].
    destruct (Part000_checked_fails F) as [e C].
    unfold answers. rewrite R, C. reflexivity.
Qed.

Lemma provider_failure_is_caught_witness :
  key_missing (configured (Ok NotJSON)) = false /\
  has_text (post (JStr long_text)) (JStr long_text) /\
  (50 <= List.length long_text)%nat /\
  answers (Server.analyze (configured (Ok NotJSON)) (post (JStr long_text)))
    {| status := 500; body := Server.analysis_failed |} /\
  answers (Part000.analyze (configured (Ok NotJSON)) (post (JStr long_text)))
    {| status := 500; body := Part000.analysis_failed |}.
Proof.
  assert (T : has_text (post (JStr long_text)) (JStr long_text))
    by reflexivity.
  destruct (provider_failure_is_caught (configured (Ok NotJSON))
              (eq_refl : key_missing (configured (Ok NotJSON)) = false)
              T long_text_valid) as (A & B & _).
  split; [reflexivity|].
  split; [exact T|].
  split; [exact long_text_valid|].
  split; [apply A | apply B]; right; reflexivity.
Defined.


(** C4 as stated fails in its last clause: a reply that parses to the
    empty object is answered 200 with the three defaults and neither risk
    nor summary, which is not a fully-shaped AnalysisResult. *)
Lemma empty_reply_is_not_fully_shaped :
  answers (Server.analyze (configured (Ok (JSON (obj []))))
             (post (JStr long_text)))
    {| status := 200;
       body := obj [("score", num 5); ("sources", empty_array);
                    ("claimsChecked", num 0)] |}
  /\ answers (Part000.analyze (configured (Ok (JSON (obj []))))
                (post (JStr long_text)))
       {| status := 200;
          body := obj [("score", num 5); ("sources", empty_array);
                       ("claimsChecked", num 0)] |}
  /\ field (obj [("score", num 5); ("sources", empty_array);
                 ("claimsChecked", num 0)]) "risk" = JUndefined
  /\ field (obj [("score", num 5); ("sources", empty_array);
                 ("claimsChecked", num 0)]) "summary" = JUndefined
  /\ ~ fully_shaped (obj [("score", num 5); ("sources", empty_array);
                          ("claimsChecked", num 0)]).
Proof.
  split; [reflexivity|]. split; [reflexivity|].
  split; [reflexivity|]. split; [reflexivity|].
  intros (_ & (r & H) & _). vm_compute in H. discriminate H.
Qed.

(** ** Properties of every response *)

(** A property of the three canned bodies and of every normalized reply
    is a property of every response. *)
Lemma every_response (Q : value -> Prop) p req_body :
  Q Server.too_short -> Q Server.not_configured -> Q Server.analysis_failed ->
  Q Part000.too_short -> Q Part000.not_configured ->
  Q Part000.analysis_failed ->
  (forall r v a, replies p r v -> normalize v = Ok a -> Q a) ->
  (exists resp, answers (Server.analyze p req_body) resp /\ Q (body resp)) /\
  (exists resp, answers (Part000.analyze p req_body) resp /\ Q (body resp)).
Proof.
  intros Q1 Q2 Q3 Q4 Q5 Q6 QN. split.
  - destruct (Server_analyze_paths p req_body)
      as (resp & A & [->|[->|[->|(r & a & C & ->)]]]);
      eexists; (split; [exact A|]); simpl; auto.
    destruct (Server_checked_Ok _ C) as (v & G & N). eapply QN; eauto.
  - destruct (Part000_analyze_paths p req_body)
      as (resp & A & [->|[->|[->|(r & a & C & ->)]]]);
      eexists; (split; [exact A|]); simpl; auto.
    destruct (Part000_checked_Ok _ C) as (v & G & N). eapply QN; eauto.
Qed.

Lemma five_in_range : in_0_10 (Fin (inject_Z 5)).
Proof. unfold in_0_10, Qle; simpl; lia. Qed.

Lemma clamp_0_10_in_range x n :
  ToNumber x <> Ok NaN -> clamp_0_10 x = Ok n -> in_0_10 n.
Proof.
  unfold clamp_0_10. destruct (ToNumber x) as [y|e]; simpl; [|discriminate].
  intros N E; inversion E; subst.
  apply clamp_in_range; congruence.
Qed.

(** A score that is missing or a number converts. *)
Lemma number_score_converts v :
  field v "score" = JUndefined \/ (exists n, field v "score" = JNum n) ->
  score_converts v.
Proof.
  unfold score_converts, or_else.
  intros [-> | [n ->]]; [discriminate|].
  destruct n as [| | |q]; try discriminate.
  unfold ToBoolean. destruct (num_is_zero (Fin q)); discriminate.
Qed.

(** ** The score *)

(** C2, as amended.  For every provider whose replies carry a score that
    is missing, falsy, a number, or any other value that [ToNumber] turns
    into a number (not NaN), the score of the result returned by
    [/analyze] is a number within [0, 10], on every path of both files. *)
Theorem score_within_0_10 p req_body :
  (forall r v, replies p r v -> score_converts v) ->
  (exists resp n, answers (Server.analyze p req_body) resp
                  /\ field (body resp) "score" = JNum n /\ in_0_10 n)
  /\ (exists resp n, answers (Part000.analyze p req_body) resp
                     /\ field (body resp) "score" = JNum n /\ in_0_10 n).
Proof.
  intros H.
  destruct (@every_response
              (fun b => exists n, field b "score" = JNum n /\ in_0_10 n)
              p req_body) as [(rs & As & ns & Fs & Rs) (rp & Ap & np & Fp & Rp)];
    try (exists (Fin (inject_Z 5)); split; [reflexivity|exact five_in_range]).
  - intros r v a G N.
    destruct (normalize_fields v N) as [(n & C & F) _].
    exists n; split; [exact F|].
    eapply clamp_0_10_in_range; [|exact C]. exact (H r v G).
  - split; [exists rs, ns | exists rp, np]; auto.
Qed.

Lemma score_within_0_10_witness :
  (forall r v, replies (configured (Ok (JSON (reply_with (num 42) reuters)))) r v
               -> score_converts v) /\
  exists resp n,
    answers (Server.analyze (configured (Ok (JSON (reply_with (num 42) reuters))))
               (post (JStr long_text))) resp
    /\ field (body resp) "score" = JNum n /\ in_0_10 n.
Proof.
  assert (H : forall r v,
             replies (configured (Ok (JSON (reply_with (num 42) reuters)))) r v
             -> score_converts v).
  { intros r v G. unfold replies in G; simpl in G.
    inversion G; subst v. apply number_score_converts.
    right; eexists; reflexivity. }
  split; [exact H|].
  exact (proj1 (score_within_0_10 (post (JStr long_text)) H)).
Defined.

(** C2 as stated fails for a non-numeric score: the string "high" is
    truthy, [Math.max(0, "high")] is NaN, and the 200 response carries a
    score of NaN. *)
Lemma textual_score_is_not_clamped :
  exists resp,
    answers (Server.analyze (configured (Ok (JSON (reply_with (str "high") reuters))))
               (post (JStr long_text))) resp
    /\ status resp = 200
    /\ field (body resp) "score" = JNum NaN
    /\ ~ in_0_10 NaN.
Proof.
  eexists. split; [reflexivity|].
  split; [reflexivity|]. split; [reflexivity|]. simpl; tauto.
Qed.




(** ** Replies *)

(** With valid text and a key, the response is decided by the reply. *)
Lemma answer_to_reply p req_body s v :
  key_missing p = false ->
  has_text req_body (JStr s) ->
  (50 <= List.length s)%nat ->
  replied p s v ->
  answers (Server.analyze p req_body)
    (match Server.checked (Ok (JSON v)) with
     | Ok a => {| status := 200; body := a |}
     | Throw _ => {| status := 500; body := Server.analysis_failed |}
     end)
  /\ answers (Part000.analyze p req_body)
       (match Part000.checked (Ok (JSON v)) with
        | Ok a => {| status := 200; body := a |}
        | Throw _ => {| status := 500; body := Part000.analysis_failed |}
        end).
Proof.
  intros K T V [Gs Gp].
  destruct (Server_analyze_called p K T V) as [Rs _].
  destruct (Part000_analyze_called p K T V) as [Rp _].
  unfold answers. rewrite Rs, Rp. unfold replies in Gs, Gp. rewrite Gs, Gp.
  split; reflexivity.
Qed.

Lemma get_prop_field a ps k :
  own_props a = Some ps -> get_prop a (js k) = Ok (field a k).
Proof.
  intros O. unfold field.
  destruct a; simpl in O; try discriminate; reflexivity.
Qed.

Lemma strings_join es : Forall is_string es -> ToString (JArr es []) = Ok tt.
Proof.
  intros F. unfold ToString.
  replace (ToString_completes (JArr es [])) with true; [reflexivity|].
  symmetry. induction F as [|e es S F IH]; [reflexivity|].
  destruct e; simpl in S; try contradiction.
  exact IH.
Qed.

(** A reply with the types of the schema goes through both handlers. *)
Lemma typed_reply_checked v :
  typed_reply v ->
  exists a, normalize v = Ok a
            /\ Server.checked (Ok (JSON v)) = Ok a
            /\ Part000.checked (Ok (JSON v)) = Ok a.
Proof.
  intros ((ps & ->) & Sc & Rk & Sr).
  assert (O : own_props (JObj ps) = Some ps) by reflexivity.
  assert (C : exists n, clamp_0_10 (or_else (field (JObj ps) "score") (num 5))
                        = Ok n).
  { destruct Sc as [-> | [n ->]]; [eexists; reflexivity|].
    unfold or_else. destruct (ToBoolean (JNum n)); eexists; reflexivity. }
  destruct C as [n C].
  assert (N : exists a, normalize (JObj ps) = Ok a).
  { rewrite normalize_spec. cbn [own_props].
    rewrite (field_own _ O) in C by discriminate.
    rewrite C. eexists; reflexivity. }
  destruct N as [a N]. exists a. split; [exact N|].
  destruct (normalize_fields _ N) as ((n' & _ & Fs) & Fsrc & _ & Frame).
  assert (O' : exists ps', own_props a = Some ps').
  { rewrite normalize_spec in N. cbn [own_props] in N.
    destruct (clamp_0_10 _); cbn [and_then] in N; [|discriminate].
    inversion N; eexists; reflexivity. }
  destruct O' as [ps' O'].
  assert (R : get_prop a (js "risk") = Ok (field (JObj ps) "risk")).
  { rewrite Frame by discriminate. apply (get_prop_field _ _ O). }
  assert (RT : ToString (field (JObj ps) "risk") = Ok tt).
  { destruct Rk as [-> | S]; [reflexivity|].
    destruct (field (JObj ps) "risk"); simpl in S; try tauto; reflexivity. }
  assert (SL : exists es, field a "sources" = JArr es []
                          /\ Forall is_string es).
  { rewrite Fsrc. destruct Sr as [-> | (es & -> & F)].
    - exists []; split; [reflexivity|constructor].
    - exists es; split; [reflexivity|exact F]. }
  destruct SL as (es & Fa & Fes).
  unfold Server.checked, Part000.checked. cbn [JSON_parse and_then].
  rewrite N. cbn [and_then].
  rewrite R. cbn [and_then]. rewrite RT. cbn [and_then].
  rewrite (get_prop_field _ "score" O'), Fs. cbn [and_then ToString ToString_completes].
  rewrite (get_prop_field _ "sources" O'), Fa. cbn [and_then].
  change (get_prop (JArr es []) (js "length"))
    with (Ok (JNum (num_of_nat (List.length es))) : result value).
  cbn [and_then ToString ToString_completes].
  split; [reflexivity|].
  destruct (less_than (num 0) (JNum (num_of_nat (List.length es))))
    as [[|]|e] eqn:L; cbn [and_then].
  - unfold join. cbn [has_own lookup]. rewrite (strings_join Fes). reflexivity.
  - reflexivity.
  - discriminate L.
Qed.

Lemma own_lookup k ps v :
  own k ps = v -> v <> JUndefined -> lookup (js k) ps = Some v.
Proof.
  unfold own. destruct (lookup (js k) ps); intros E N; congruence.
Qed.

(** C6.  For every provider reply omitting [sources], the result of the
    three assignments has [sources] equal to the empty array, and for
    every reply whose [claimsChecked] is missing or falsy it has
    [claimsChecked] equal to 0.  A reply object with the schema's types is
    answered 200 with that result by both files, [sources] and
    [claimsChecked] being own properties of the body; a reply that ends in
    the catch block gets the canned body, with the same two values. *)
Theorem absent_sources_and_claims_default p req_body s v :
  key_missing p = false ->
  has_text req_body (JStr s) ->
  (50 <= List.length s)%nat ->
  replied p s v ->
  (forall a, normalize v = Ok a ->
     (field v "sources" = JUndefined -> field a "sources" = empty_array)
     /\ (ToBoolean (field v "claimsChecked") = false ->
         field a "claimsChecked" = num 0))
  /\ exists rs rp,
       answers (Server.analyze p req_body) rs
       /\ answers (Part000.analyze p req_body) rp
       /\ (field v "sources" = JUndefined ->
           field (body rs) "sources" = empty_array
           /\ field (body rp) "sources" = empty_array)
       /\ (ToBoolean (field v "claimsChecked") = false ->
           field (body rs) "claimsChecked" = num 0
           /\ field (body rp) "claimsChecked" = num 0)
       /\ (typed_reply v ->
           exists ps',
             normalize v = Ok (JObj ps')
             /\ rs = {| status := 200; body := JObj ps' |}
             /\ rp = {| status := 200; body := JObj ps' |}
             /\ (field v "sources" = JUndefined ->
                 lookup (js "sources") ps' = Some empty_array)
             /\ (ToBoolean (field v "claimsChecked") = false ->
                 lookup (js "claimsChecked") ps' = Some (num 0))).
Proof.
  intros K T V G.
  assert (NF : forall a, normalize v = Ok a ->
             (field v "sources" = JUndefined ->
              field a "sources" = empty_array)
             /\ (ToBoolean (field v "claimsChecked") = false ->
                 field a "claimsChecked" = num 0)).
  { intros a N. destruct (normalize_fields v N) as (_ & S & C & _).
    split; intros H.
    - rewrite S, H. reflexivity.
    - rewrite C. unfold or_else. rewrite H. reflexivity. }
  split; [exact NF|].
  destruct (@answer_to_reply p req_body s v K T V G) as [As Ap].
  do 2 eexists. split; [exact As|]. split; [exact Ap|].
  split; [|split].
  - intros H. split.
    + destruct (Server.checked _) as [a|e] eqn:C; [|reflexivity].
      destruct (Server_checked_Ok _ C) as (v' & E & N).
      inversion E; subst v'. exact (proj1 (NF a N) H).
    + destruct (Part000.checked _) as [a|e] eqn:C; [|reflexivity].
      destruct (Part000_checked_Ok _ C) as (v' & E & N).
      inversion E; subst v'. exact (proj1 (NF a N) H).
  - intros H. split.
    + destruct (Server.checked _) as [a|e] eqn:C; [|reflexivity].
      destruct (Server_checked_Ok _ C) as (v' & E & N).
      inversion E; subst v'. exact (proj2 (NF a N) H).
    + destruct (Part000.checked _) as [a|e] eqn:C; [|reflexivity].
      destruct (Part000_checked_Ok _ C) as (v' & E & N).
      inversion E; subst v'. exact (proj2 (NF a N) H).
  - intros Ty. destruct (typed_reply_checked Ty) as (a & N & Cs & Cp).
    assert (O : exists ps', a = JObj ps').
    { destruct Ty as ((ps & ->) & _).
      rewrite normalize_spec in N. cbn [own_props with_props] in N.
      destruct (clamp_0_10 _); cbn [and_then] in N; [|discriminate].
      inversion N; eexists; reflexivity. }
    destruct O as [ps' ->]. exists ps'.
    rewrite Cs, Cp. split; [exact N|]. split; [reflexivity|].
    split; [reflexivity|].
    assert (O' : own_props (JObj ps') = Some ps') by reflexivity.
    destruct (NF _ N) as [HS HC]. split; intros H.
    + apply own_lookup; [|discriminate].
      rewrite <- (field_own _ O') by discriminate. exact (HS H).
    + apply own_lookup; [|discriminate].
      rewrite <- (field_own _ O') by discriminate. exact (HC H).
Qed.

Lemma absent_sources_and_claims_default_witness :
  key_missing (configured (Ok (JSON (obj [("score", num 7)])))) = false /\
  has_text (post (JStr long_text)) (JStr long_text) /\
  (50 <= List.length long_text)%nat /\
  replied (configured (Ok (JSON (obj [("score", num 7)])))) long_text
    (obj [("score", num 7)]) /\
  typed_reply (obj [("score", num 7)]) /\
  answers (Server.analyze (configured (Ok (JSON (obj [("score", num 7)]))))
             (post (JStr long_text)))
    {| status := 200;
       body := obj [("score", num 7); ("sources", empty_array);
                    ("claimsChecked", num 0)] |}
  /\ answers (Part000.analyze
                (configured (Ok (JSON (obj [("score", num 7)]))))
                (post (JStr long_text)))
       {| status := 200;
          body := obj [("score", num 7); ("sources", empty_array);
                       ("claimsChecked", num 0)] |}.
Proof.
  assert (T : has_text (post (JStr long_text)) (JStr long_text))
    by reflexivity.
  assert (G : replied (configured (Ok (JSON (obj [("score", num 7)]))))
                long_text (obj [("score", num 7)])) by (split; reflexivity).
  assert (Ty : typed_reply (obj [("score", num 7)])).
  { split; [eexists; reflexivity|]. split; [right; eexists; reflexivity|].
    split; left; reflexivity. }
  destruct (@absent_sources_and_claims_default
              (configured (Ok (JSON (obj [("score", num 7)]))))
              _ _ _ eq_refl T long_text_valid G)
    as (_ & rs & rp & As & Ap & _ & _ & H).
  destruct (H Ty) as (ps' & N & -> & -> & _).
  assert (E : JObj ps' = obj [("score", num 7); ("sources", empty_array);
                              ("claimsChecked", num 0)]).
  { assert (Ok (obj [("score", num 7); ("sources", empty_array);
                     ("claimsChecked", num 0)]) = Ok (JObj ps')) as Q
        by (rewrite <- N; reflexivity).
    congruence. }
  rewrite E in As, Ap.
  split; [reflexivity|]. split; [exact T|].
  split; [exact long_text_valid|]. split; [exact G|]. split; [exact Ty|].
  split; assumption.
Defined.

Lemma typed_reply_sample n : typed_reply (reply_with (JNum n) reuters).
Proof.
  split; [eexists; reflexivity|]. split; [right; eexists; reflexivity|].
  split; [right; exact I|].
  right. exists [str "Reuters"]. split; [reflexivity|].
  constructor; [exact I|constructor].
Qed.

Lemma normalize_passes_through v a : normalize v = Ok a -> passes_through v a.
Proof.
  intros N. destruct (normalize_fields v N) as (_ & _ & _ & Frame).
  split; [exact N|]. split; [|exact Frame].
  unfold field. rewrite Frame by discriminate. reflexivity.
Qed.

(** C8, as amended.  For every provider reply that is parsed and answered
    200, the body is the reply after the three assignments: its risk is
    the provider's risk unchanged, whatever it is, and nothing but score,
    sources and claimsChecked is modified.  That is the case for every
    reply that is a JSON object whose score, risk and sources have the
    types of the response schema when present.  (A parsed reply on which
    an assignment, a conversion or a console line throws is answered by
    the canned failure.) *)
Theorem risk_passes_through p req_body s v :
  key_missing p = false ->
  has_text req_body (JStr s) ->
  (50 <= List.length s)%nat ->
  replied p s v ->
  exists rs rp,
    answers (Server.analyze p req_body) rs
    /\ answers (Part000.analyze p req_body) rp
    /\ (status rs = 200 -> passes_through v (body rs))
    /\ (status rp = 200 -> passes_through v (body rp))
    /\ (typed_reply v -> status rs = 200 /\ status rp = 200).
Proof.
  intros K T V G.
  destruct (@answer_to_reply p req_body s v K T V G) as [As Ap].
  do 2 eexists. split; [exact As|]. split; [exact Ap|].
  split; [|split].
  - destruct (Server.checked _) as [a|e] eqn:C; simpl; [|discriminate].
    intros _. destruct (Server_checked_Ok _ C) as (v' & E & N).
    inversion E; subst v'. apply normalize_passes_through; exact N.
  - destruct (Part000.checked _) as [a|e] eqn:C; simpl; [|discriminate].
    intros _. destruct (Part000_checked_Ok _ C) as (v' & E & N).
    inversion E; subst v'. apply normalize_passes_through; exact N.
  - intros Ty. destruct (typed_reply_checked Ty) as (a & _ & Cs & Cp).
    rewrite Cs, Cp. split; reflexivity.
Qed.

Lemma risk_passes_through_witness :
  key_missing (configured (Ok (JSON (reply_with (num 2) reuters)))) = false /\
  has_text (post (JStr long_text)) (JStr long_text) /\
  (50 <= List.length long_text)%nat /\
  replied (configured (Ok (JSON (reply_with (num 2) reuters)))) long_text
    (reply_with (num 2) reuters) /\
  typed_reply (reply_with (num 2) reuters) /\
  exists rs rp,
    answers (Server.analyze (configured (Ok (JSON (reply_with (num 2) reuters))))
               (post (JStr long_text))) rs
    /\ answers (Part000.analyze (configured (Ok (JSON (reply_with (num 2) reuters))))
                  (post (JStr long_text))) rp
    /\ field (body rs) "risk" = str "Trustworthy"
    /\ field (body rp) "risk" = str "Trustworthy".
Proof.
  assert (T : has_text (post (JStr long_text)) (JStr long_text))
    by reflexivity.
  assert (G : replied (configured (Ok (JSON (reply_with (num 2) reuters))))
                long_text (reply_with (num 2) reuters))
    by (split; reflexivity).
  assert (Ty : typed_reply (reply_with (num 2) reuters))
    by apply typed_reply_sample.
  destruct (@risk_passes_through
              (configured (Ok (JSON (reply_with (num 2) reuters))))
              _ _ _ eq_refl T long_text_valid G)
    as (rs & rp & As & Ap & Ps & Pp & S).
  destruct (S Ty) as [Ss Sp].
  destruct (Ps Ss) as (_ & Rs & _). destruct (Pp Sp) as (_ & Rp & _).
  split; [reflexivity|]. split; [exact T|].
  split; [exact long_text_valid|]. split; [exact G|]. split; [exact Ty|].
  exists rs, rp. exact (conj As (conj Ap (conj Rs Rp))).
Defined.

(** C8 as stated fails for parsed replies that end in the catch block.  In
    [src/unnamed/part_000] a reply whose sources is the string "Reuters"
    makes [sources.join] throw: the provider's risk "Trustworthy" comes
    back as "Medium Risk".  In [src/server.js] the reply [null] parses, and
    reading [null.score] throws. *)
Lemma caught_reply_loses_its_risk :
  field (reply_with (num 9) (str "Reuters")) "risk" = str "Trustworthy"
  /\ answers (Part000.analyze
                (configured (Ok (JSON (reply_with (num 9) (str "Reuters")))))
                (post (JStr long_text)))
       {| status := 500; body := Part000.analysis_failed |}
  /\ field Part000.analysis_failed "risk" = str "Medium Risk"
  /\ str "Medium Risk" <> str "Trustworthy"
  /\ answers (Server.analyze (configured (Ok (JSON JNull)))
                (post (JStr long_text)))
       {| status := 500; body := Server.analysis_failed |}
  /\ field Server.analysis_failed "risk" = str "Medium Risk".
Proof.
  split; [reflexivity|]. split; [reflexivity|]. split; [reflexivity|].
  split; [discriminate|]. split; reflexivity.
Qed.

(** ** Clamping *)

Lemma clamp_below n :
  num_ltb n (Fin 0) = true ->
  ToBoolean (JNum n) = true
  /\ Math_min (Fin 10) (Math_max (Fin 0) n) = Fin 0.
Proof.
  destruct n as [| | |q]; intros H; try discriminate H.
  - split; reflexivity.
  - unfold num_ltb in H.
    destruct (Qcompare_spec q 0) as [E|L|G]; try discriminate H.
    split.
    + unfold ToBoolean, num_is_zero.
      rewrite (proj1 (Qlt_alt q 0) L). reflexivity.
    + rewrite clamp_Fin.
      replace (Qle_bool q 0) with true; [reflexivity|].
      symmetry; apply Qle_bool_iff, Qlt_le_weak, L.
Qed.

Lemma clamp_above n :
  num_ltb (Fin 10) n = true ->
  ToBoolean (JNum n) = true
  /\ Math_min (Fin 10) (Math_max (Fin 0) n) = Fin 10.
Proof.
  destruct n as [| | |q]; intros H; try discriminate H.
  - split; reflexivity.
  - unfold num_ltb in H.
    destruct (Qcompare_spec 10 q) as [E|L|G]; try discriminate H.
    assert (P : (0 < q)%Q) by (eapply Qlt_trans; [|exact L]; reflexivity).
    split.
    + unfold ToBoolean, num_is_zero.
      rewrite (proj1 (Qgt_alt q 0) P). reflexivity.
    + rewrite clamp_Fin.
      replace (Qle_bool q 0) with false.
      * replace (Qle_bool 10 q) with true; [reflexivity|].
        symmetry; apply Qle_bool_iff, Qlt_le_weak, L.
      * symmetry. destruct (Qle_bool q 0) eqn:B; [|reflexivity].
        apply Qle_bool_iff in B. exfalso.
        apply (Qlt_irrefl 0). eapply Qlt_le_trans; eauto.
Qed.

(** C10.  For every provider reply whose score is a number below 0 or
    above 10 (such a number is truthy), the three assignments return, and
    leave 0 for a negative score and 10 for a score above 10, never the
    default 5; a reply with the types of the schema is answered 200 with
    that result by both files. *)
Theorem out_of_range_score_is_clamped v n :
  field v "score" = JNum n ->
  num_ltb n (Fin 0) = true \/ num_ltb (Fin 10) n = true ->
  ToBoolean (JNum n) = true
  /\ exists a,
       normalize v = Ok a
       /\ field a "score" = (if num_ltb n (Fin 0) then num 0 else num 10)
       /\ field a "score" <> num 5
       /\ (forall p req_body s,
             key_missing p = false ->
             has_text req_body (JStr s) ->
             (50 <= List.length s)%nat ->
             replied p s v ->
             typed_reply v ->
             answers (Server.analyze p req_body)
               {| status := 200; body := a |}
             /\ answers (Part000.analyze p req_body)
                  {| status := 200; body := a |}).
Proof.
  intros F R.
  assert (C : ToBoolean (JNum n) = true /\
              Math_min (Fin 10) (Math_max (Fin 0) n)
              = if num_ltb n (Fin 0) then Fin 0 else Fin 10).
  { destruct (num_ltb n (Fin 0)) eqn:B.
    - apply clamp_below; exact B.
    - destruct R as [R|R]; [discriminate|]. apply clamp_above; exact R. }
  destruct C as [Tr C]. split; [exact Tr|].
  assert (O : exists ps, own_props v = Some ps).
  { destruct v; try discriminate F; eexists; reflexivity. }
  destruct O as [ps O].
  assert (N : exists a, normalize v = Ok a).
  { rewrite normalize_spec, O.
    rewrite <- (field_own v O) by discriminate.
    rewrite F. unfold or_else. rewrite Tr.
    eexists; reflexivity. }
  destruct N as [a N]. exists a. split; [exact N|].
  destruct (normalize_fields v N) as ((m & Cm & Fm) & _).
  rewrite F in Cm. unfold or_else in Cm. rewrite Tr in Cm.
  unfold clamp_0_10 in Cm. cbn [ToNumber and_then] in Cm.
  assert (E : m = Math_min (Fin 10) (Math_max (Fin 0) n)) by congruence.
  rewrite Fm, E, C.
  split; [destruct (num_ltb n (Fin 0)); reflexivity|].
  split; [destruct (num_ltb n (Fin 0)); discriminate|].
  intros p req_body s K T V G Ty.
  destruct (@answer_to_reply p req_body s v K T V G) as [As Ap].
  destruct (typed_reply_checked Ty) as (a' & N' & Cs & Cp).
  assert (a' = a) by congruence. subst a'.
  rewrite Cs in As. rewrite Cp in Ap. split; assumption.
Qed.

Lemma out_of_range_score_is_clamped_witness :
  field (reply_with (num 42) reuters) "score" = JNum (Fin 42) /\
  (num_ltb (Fin 42) (Fin 0) = true \/ num_ltb (Fin 10) (Fin 42) = true) /\
  exists a,
    normalize (reply_with (num 42) reuters) = Ok a
    /\ field a "score" = num 10
    /\ answers (Server.analyze
                  (configured (Ok (JSON (reply_with (num 42) reuters))))
                  (post (JStr long_text)))
         {| status := 200; body := a |}.
Proof.
  destruct (@out_of_range_score_is_clamped (reply_with (num 42) reuters)
              (Fin 42) eq_refl (or_intror eq_refl))
    as (_ & a & N & S & _ & H).
  split; [reflexivity|]. split; [right; reflexivity|].
  exists a. split; [exact N|]. split; [exact S|].
  apply (H (configured (Ok (JSON (reply_with (num 42) reuters))))
           (post (JStr long_text)) long_text eq_refl eq_refl long_text_valid
           (conj eq_refl eq_refl) (typed_reply_sample (Fin 42))).
Defined.

(** ** Truncation *)

(** The run depends on the text only through its first 5000 code units. *)
Lemma run_depends_on_prefix p b1 s1 b2 s2 :
  has_text b1 (JStr s1) -> has_text b2 (JStr s2) ->
  (50 <= List.length s1)%nat -> (50 <= List.length s2)%nat ->
  substring0 s1 5000 = substring0 s2 5000 ->
  run (Server.analyze p b1) = run (Server.analyze p b2)
  /\ run (Part000.analyze p b1) = run (Part000.analyze p b2).
Proof.
  intros T1 T2 V1 V2 E. split; unfold_handler; rewrite T1, T2.
  - rewrite !(@Server_invalid_text_valid (JStr _)) by assumption.
    unfold substring. rewrite E. reflexivity.
  - rewrite !Part000_invalid_text_string.
    replace (Nat.ltb (List.length s1) 50) with false
      by (symmetry; apply Nat.ltb_ge; assumption).
    replace (Nat.ltb (List.length s2) 50) with false
      by (symmetry; apply Nat.ltb_ge; assumption).
    unfold substring. rewrite E. reflexivity.
Qed.

(** C7.  For every valid text, one call goes to the provider, and what it
    carries of the text is [text.substring(0, 5000)] behind the prefix:
    exactly the first 5000 characters of a longer text, the whole of a
    shorter one.  Nothing in the run signals the truncation: two valid
    texts with the same first 5000 characters get the same response (and
    the same console lines). *)
Theorem long_text_is_truncated p req_body s :
  key_missing p = false ->
  has_text req_body (JStr s) ->
  (50 <= List.length s)%nat ->
  (exists r, outbound_calls (snd (run (Server.analyze p req_body))) = [r]
             /\ contents r = js "Fact-check this:" ++ [newline; newline]
                             ++ firstn 5000 s)
  /\ (exists r, outbound_calls (snd (run (Part000.analyze p req_body))) = [r]
                /\ contents r = js "Fact-check this post:"
                                ++ [newline; newline] ++ firstn 5000 s)
  /\ ((5000 < List.length s)%nat -> List.length (firstn 5000 s) = 5000%nat)
  /\ ((List.length s <= 5000)%nat -> firstn 5000 s = s)
  /\ (forall req_body' s',
        has_text req_body' (JStr s') ->
        (50 <= List.length s')%nat ->
        firstn 5000 s' = firstn 5000 s ->
        run (Server.analyze p req_body') = run (Server.analyze p req_body)
        /\ run (Part000.analyze p req_body')
           = run (Part000.analyze p req_body)).
Proof.
  intros K T V.
  destruct (Server_analyze_called p K T V) as [_ Cs].
  destruct (Part000_analyze_called p K T V) as [_ Cp].
  split; [eexists; split; [exact Cs|reflexivity]|].
  split; [eexists; split; [exact Cp|reflexivity]|].
  split; [intros L; apply firstn_length_le; lia|].
  split; [intros L; apply firstn_all2; exact L|].
  intros b' s' T' V' E. apply (run_depends_on_prefix p T' T V' V E).
Qed.

Lemma overlong_text_valid : (50 <= List.length overlong_text)%nat.
Proof. unfold overlong_text. rewrite length_app, repeat_length. simpl. lia. Qed.

Lemma long_text_is_truncated_witness :
  key_missing (configured (Ok NotJSON)) = false /\
  has_text (post (JStr overlong_text)) (JStr overlong_text) /\
  (50 <= List.length overlong_text)%nat /\
  exists r,
    outbound_calls
      (snd (run (Server.analyze (configured (Ok NotJSON))
                   (post (JStr overlong_text))))) = [r]
    /\ contents r = js "Fact-check this:" ++ [newline; newline]
                    ++ repeat 97%N 5000.
Proof.
  assert (T : has_text (post (JStr overlong_text)) (JStr overlong_text))
    by reflexivity.
  destruct (@long_text_is_truncated (configured (Ok NotJSON)) _ _
              eq_refl T overlong_text_valid) as ((r & C & E) & _).
  split; [reflexivity|]. split; [exact T|].
  split; [exact overlong_text_valid|].
  exists r. split; [exact C|].
  rewrite E. reflexivity.
Defined.

(** ** Health *)

Lemma pad_length w n : List.length (pad w n) = w.
Proof.
  revert n; induction w as [|w IH]; intros n; simpl; [reflexivity|].
  rewrite length_app, IH. simpl. lia.
Qed.

Lemma toISOString_length tv :
  List.length (toISOString tv) = 24%nat
  \/ List.length (toISOString tv) = 27%nat.
Proof.
  unfold toISOString.
  destruct (civil_from_days (tv / 86400000)) as [[y m] d].
  destruct ((0 <=? y) && (y <=? 9999)); [left|right];
    repeat (rewrite !length_app || rewrite !pad_length);
    destruct (0 <=? y); reflexivity.
Qed.

(** C9.  Every [GET /health] is answered 200 with status "ok", the ISO
    string of the current time as timestamp, and the model identifier
    "gemini-2.0-flash-exp" (under [model] in [src/server.js], under
    [aiModel] next to a version in [src/unnamed/part_000]), whatever the
    process holds, credential or not; it logs nothing and calls nobody. *)
Theorem health_is_always_ok p :
  run (Server.health p)
  = (Ok {| status := 200;
           body := obj [("status", str "ok");
                        ("timestamp", JStr (toISOString (now p)));
                        ("model", str "gemini-2.0-flash-exp")] |}, [])
  /\ run (Part000.health p)
     = (Ok {| status := 200;
              body := obj [("status", str "ok");
                           ("timestamp", JStr (toISOString (now p)));
                           ("version", str "2.0");
                           ("aiModel", str "gemini-2.0-flash-exp")] |}, [])
  /\ (List.length (toISOString (now p)) = 24%nat
      \/ List.length (toISOString (now p)) = 27%nat).
Proof.
  split; [reflexivity|]. split; [reflexivity|]. apply toISOString_length.
Qed.

(** ** Samples of the runtime *)

Example toISOString_samples :
  toISOString 0 = js "1970-01-01T00:00:00.000Z" /\
  toISOString 1730534400123 = js "2024-11-02T08:00:00.123Z" /\
  toISOString 951782400000 = js "2000-02-29T00:00:00.000Z" /\
  toISOString (-1) = js "1969-12-31T23:59:59.999Z" /\
  toISOString 253402300800000 = js "+010000-01-01T00:00:00.000Z".
Proof. vm_compute. repeat split. Qed.

Example health_sample :
  field (body {| status := 200;
                 body := obj [("status", str "ok");
                              ("timestamp", JStr (toISOString (now unconfigured)));
                              ("model", str "gemini-2.0-flash-exp")] |})
    "timestamp" = str "1970-01-01T00:00:00.000Z".
Proof. vm_compute. reflexivity. Qed.

Example StringToNumber_samples :
  StringToNumber (js "high") = NaN /\
  StringToNumber (js " 7 ") = Fin 7 /\
  StringToNumber (js "7.5") = Fin (15 # 2) /\
  StringToNumber (js "-3") = Fin (-3 # 1) /\
  StringToNumber (js "1e3") = Fin 1000 /\
  StringToNumber (js ".5e1") = Fin 5 /\
  StringToNumber (js "5.") = Fin 5 /\
  StringToNumber (js "0x1F") = Fin 31 /\
  StringToNumber (js "-0x1F") = NaN /\
  StringToNumber (js "") = Fin 0 /\
  StringToNumber (js "1,2") = NaN /\
  StringToNumber (js "1e") = NaN /\
  StringToNumber (js ".") = NaN /\
  StringToNumber (js "-Infinity") = NegInf /\
  StringToNumber (js "1e400") = PosInf /\
  StringToNumber (js "1e-400") = Fin 0 /\
  StringToNumber (js "0.1") = Fin (3602879701896397 # 36028797018963968) /\
  StringToNumber (js "9007199254740993") = Fin 9007199254740992 /\
  StringToNumber (js "5e-324") = Fin (1 # Pos.pow 2 1074) /\
  StringToNumber (js "2e-324") = Fin 0 /\
  StringToNumber (js "1.7976931348623157e308")
    = Fin (inject_Z ((2 ^ 53 - 1) * 2 ^ 971)) /\
  StringToNumber (js "1.7976931348623159e308") = PosInf.
Proof. vm_compute. repeat split. Qed.

Example ToNumber_samples :
  ToNumber JNull = Ok (Fin 0) /\
  ToNumber (JBool true) = Ok (Fin 1) /\
  ToNumber JUndefined = Ok NaN /\
  ToNumber (str "7") = Ok (Fin 7) /\
  ToNumber (str "high") = Ok NaN /\
  ToNumber (JArr [] []) = Ok (Fin 0) /\
  ToNumber (JArr [num 7] []) = Ok (Fin 7) /\
  ToNumber (JArr [num 1; num 2] []) = Ok NaN /\
  ToNumber (obj []) = Ok NaN /\
  ToNumber (obj [("toString", num 1)]) = Throw TypeError /\
  ToNumber (JArr [obj [("toString", num 1)]] []) = Throw TypeError.
Proof. vm_compute. repeat split. Qed.

Example clamp_samples :
  clamp_0_10 (or_else JUndefined (num 5)) = Ok (Fin 5) /\
  clamp_0_10 (or_else (num 0) (num 5)) = Ok (Fin 5) /\
  clamp_0_10 (or_else (num (-3)) (num 5)) = Ok (Fin 0) /\
  clamp_0_10 (or_else (num 42) (num 5)) = Ok (Fin 10) /\
  clamp_0_10 (or_else (JNum (Fin (15 # 2))) (num 5)) = Ok (Fin (15 # 2)) /\
  clamp_0_10 (or_else (JNum PosInf) (num 5)) = Ok (Fin 10) /\
  clamp_0_10 (or_else (JNum NegInf) (num 5)) = Ok (Fin 0) /\
  clamp_0_10 (or_else (JBool true) (num 5)) = Ok (Fin 1) /\
  clamp_0_10 (or_else (str "7") (num 5)) = Ok (Fin 7) /\
  clamp_0_10 (or_else (str "high") (num 5)) = Ok NaN.
Proof. vm_compute. repeat split. Qed.

(** The spec's scenario: a reply with score 9 is echoed unchanged. *)
Example echo_sample :
  answers (Server.analyze (configured (Ok (JSON (reply_with (num 9) reuters))))
             (post (JStr long_text)))
    {| status := 200; body := reply_with (num 9) reuters |}
  /\ answers (Part000.analyze
                (configured (Ok (JSON (reply_with (num 9) reuters))))
                (post (JStr long_text)))
       {| status := 200; body := reply_with (num 9) reuters |}.
Proof. split; reflexivity. Qed.

(** A request whose body is [undefined] or [null] ends in the catch
    block: the destructuring throws inside the [try]. *)
Example unparsed_body_sample :
  answers (Server.analyze unconfigured JUndefined)
    {| status := 500; body := Server.analysis_failed |}
  /\ answers (Part000.analyze unconfigured JNull)
       {| status := 500; body := Part000.analysis_failed |}.
Proof. split; reflexivity. Qed.

(** * More of the handlers *)

(** ** The shape of every run *)

Ltac close_tail :=
  match goal with
  | |- _ \/ _ =>
      first
        [ right; split; [split; reflexivity | reflexivity]
        | left;
          match goal with
          | |- exists e pre, [Console (ErrorFailed ?x)] = _ /\ _ =>
              exists x, []
          | |- exists e pre, [?l; Console (ErrorFailed ?x)] = _ /\ _ =>
              exists x, [l]
          end;
          split; [reflexivity | split; [split; reflexivity | reflexivity]] ]
  end.

Lemma Server_run_called p req_body s :
  key_missing p = false ->
  has_text req_body (JStr s) ->
  (50 <= List.length s)%nat ->
  exists resp tail,
    run (Server.analyze p req_body)
    = (Ok resp, opening p "Fact-check this:" s ++ tail)
    /\ ((exists e pre, tail = pre ++ [Console (ErrorFailed e)] /\ quiet pre
                       /\ resp = {| status := 500;
                                    body := Server.analysis_failed |})
        \/ (quiet tail /\ status resp = 200)).
Proof.
  intros K T V. unfold opening. set (t := substring0 s 5000).
  unfold_handler. rewrite T.
  rewrite (@Server_invalid_text_valid (JStr s)) by exact V.
  rewrite K. cbv iota. unfold substring. cbv iota. fold t.
  set (r := make_request p "Fact-check this:" t). clearbody r t.
  destruct (generateContent p r) as [[|v]|e]; simpl;
    try (do 2 eexists; split; [reflexivity|close_tail]).
  destruct (normalize v) as [a|e]; simpl;
    try (do 2 eexists; split; [reflexivity|close_tail]).
  destruct (get_prop a (js "risk")) as [x|e]; simpl;
    try (do 2 eexists; split; [reflexivity|close_tail]).
  destruct (ToString x) as [[]|e]; simpl;
    try (do 2 eexists; split; [reflexivity|close_tail]).
  destruct (get_prop a (js "score")) as [y|e]; simpl;
    try (do 2 eexists; split; [reflexivity|close_tail]).
  destruct (ToString y) as [[]|e]; simpl;
    try (do 2 eexists; split; [reflexivity|close_tail]).
  destruct (get_prop a (js "sources")) as [z|e]; simpl;
    try (do 2 eexists; split; [reflexivity|close_tail]).
  destruct (get_prop z (js "length")) as [n|e]; simpl;
    try (do 2 eexists; split; [reflexivity|close_tail]).
  destruct (ToString n) as [[]|e]; simpl;
    do 2 eexists; (split; [reflexivity|close_tail]).
Qed.

Lemma Part000_run_called p req_body s :
  key_missing p = false ->
  has_text req_body (JStr s) ->
  (50 <= List.length s)%nat ->
  exists resp tail,
    run (Part000.analyze p req_body)
    = (Ok resp, opening p "Fact-check this post:" s ++ tail)
    /\ ((exists e pre, tail = pre ++ [Console (ErrorFailed e)] /\ quiet pre
                       /\ resp = {| status := 500;
                                    body := Part000.analysis_failed |})
        \/ (quiet tail /\ status resp = 200)).
Proof.
  intros K T V. unfold opening. set (t := substring0 s 5000).
  unfold_handler. rewrite T.
  rewrite Part000_invalid_text_string.
  replace (Nat.ltb (List.length s) 50) with false
    by (symmetry; apply Nat.ltb_ge; exact V).
  rewrite K. cbv iota. unfold substring. cbv iota. fold t.
  set (r := make_request p "Fact-check this post:" t). clearbody r t.
  destruct (generateContent p r) as [[|v]|e]; simpl;
    try (do 2 eexists; split; [reflexivity|close_tail]).
  destruct (normalize v) as [a|e]; simpl;
    try (do 2 eexists; split; [reflexivity|close_tail]).
  destruct (get_prop a (js "risk")) as [x|e]; simpl;
    try (do 2 eexists; split; [reflexivity|close_tail]).
  destruct (ToString x) as [[]|e]; simpl;
    try (do 2 eexists; split; [reflexivity|close_tail]).
  destruct (get_prop a (js "score")) as [y|e]; simpl;
    try (do 2 eexists; split; [reflexivity|close_tail]).
  destruct (ToString y) as [[]|e]; simpl;
    try (do 2 eexists; split; [reflexivity|close_tail]).
  destruct (get_prop a (js "sources")) as [z|e]; simpl;
    try (do 2 eexists; split; [reflexivity|close_tail]).
  destruct (get_prop z (js "length")) as [n|e]; simpl;
    try (do 2 eexists; split; [reflexivity|close_tail]).
  destruct (less_than (num 0) n) as [[|]|e]; simpl;
    try (do 2 eexists; split; [reflexivity|close_tail]).
  destruct (join z) as [[]|e]; simpl;
    do 2 eexists; (split; [reflexivity|close_tail]).
Qed.

Lemma Server_run_cases p req_body :
  run_cases Server.too_short Server.not_configured Server.analysis_failed
    "Fact-check this:" (Server.analyze p req_body) p req_body.
Proof.
  unfold run_cases.
  destruct (get_prop req_body (js "text")) as [text|e] eqn:T.
  2:{ right; right; left. exists e. unfold_handler. rewrite T. reflexivity. }
  assert (D : valid_text text \/ ~ valid_text text).
  { destruct text; simpl; try tauto.
    destruct (le_lt_dec 50 (List.length s)); [left|right]; lia. }
  destruct D as [V|V].
  - destruct text as [| | | |s| |]; simpl in V; try tauto.
    destruct (key_missing p) eqn:K.
    + right; left. split; [reflexivity|].
      unfold_handler. rewrite T.
      rewrite (@Server_invalid_text_valid (JStr s)) by exact V.
      rewrite K; reflexivity.
    + right; right; right. split; [reflexivity|].
      destruct (Server_run_called p K T V) as (resp & tail & R & H).
      exists s, resp, tail. auto.
  - left. unfold_handler. rewrite T.
    rewrite (Server_invalid_text_invalid text V); reflexivity.
Qed.

Lemma Part000_run_cases p req_body :
  run_cases Part000.too_short Part000.not_configured Part000.analysis_failed
    "Fact-check this post:" (Part000.analyze p req_body) p req_body.
Proof.
  unfold run_cases.
  destruct (get_prop req_body (js "text")) as [text|e] eqn:T.
  2:{ right; right; left. exists e. unfold_handler. rewrite T. reflexivity. }
  destruct (Part000.invalid_text text) as [[|]|e] eqn:I.
  - left. unfold_handler. rewrite T, I. reflexivity.
  - destruct (key_missing p) eqn:K.
    { right; left. split; [reflexivity|].
      unfold_handler. rewrite T, I, K. reflexivity. }
    destruct text as [| |b|n|s|es ps|ps];
      try (right; right; left; exists TypeError;
           unfold_handler; rewrite T, I, K; reflexivity).
    rewrite Part000_invalid_text_string in I.
    assert (V : (50 <= List.length s)%nat).
    { apply Nat.ltb_ge; congruence. }
    right; right; right. split; [reflexivity|].
    destruct (Part000_run_called p K T V) as (resp & tail & R & H).
    exists s, resp, tail. auto.
  - right; right; left. exists e. unfold_handler. rewrite T, I. reflexivity.
Qed.

Lemma outbound_calls_app a b :
  outbound_calls (a ++ b) = outbound_calls a ++ outbound_calls b.
Proof. unfold outbound_calls. apply flat_map_app. Qed.

Lemma console_errors_app a b :
  console_errors (a ++ b) = console_errors a ++ console_errors b.
Proof. unfold console_errors. apply filter_app. Qed.

(** What the four cases say of the calls. *)
Lemma run_cases_calls too nc fl prefix c p req_body :
  run_cases too nc fl prefix c p req_body ->
  outbound_calls (snd (run c)) = []
  \/ (key_missing p = false /\
      exists r, made_for p prefix req_body r
                /\ outbound_calls (snd (run c)) = [r]).
Proof.
  intros [R|[[_ R]|[[e R]|(K & s & resp & tail & T & V & R & H)]]];
    try (left; rewrite R; reflexivity).
  right. split; [exact K|].
  exists (make_request p prefix (substring0 s 5000)).
  split; [exists s; auto|].
  rewrite R. cbn [snd]. rewrite outbound_calls_app.
  change (outbound_calls (opening p prefix s))
    with [make_request p prefix (substring0 s 5000)].
  destruct H as [(e & pre & -> & [Q _] & _)|[[Q _] _]].
  - rewrite outbound_calls_app, Q. reflexivity.
  - rewrite Q. reflexivity.
Qed.

(** What the four cases say of the response and of the error lines. *)
Lemma run_cases_response too nc fl prefix c p req_body :
  run_cases too nc fl prefix c p req_body ->
  exists resp t,
    run c = (Ok resp, t) /\
    ((status resp = 200 /\ console_errors t = [])
     \/ (status resp = 500 /\ (body resp = nc \/ body resp = fl)
         /\ exists e, console_errors t = [e])).
Proof.
  intros [R|[[_ R]|[[e R]|(K & s & resp & tail & T & V & R & H)]]].
  - do 2 eexists. split; [exact R|]. left. split; reflexivity.
  - do 2 eexists. split; [exact R|]. right.
    split; [reflexivity|]. split; [left; reflexivity|].
    eexists; reflexivity.
  - do 2 eexists. split; [exact R|]. right.
    split; [reflexivity|]. split; [right; reflexivity|].
    eexists; reflexivity.
  - do 2 eexists. split; [exact R|].
    rewrite console_errors_app.
    change (console_errors (opening p prefix s)) with (@nil event).
    destruct H as [(e & pre & -> & [_ Q] & ->)|[[_ Q] S]].
    + right. split; [reflexivity|]. split; [right; reflexivity|].
      rewrite console_errors_app, Q. eexists; reflexivity.
    + left. split; [exact S|]. rewrite Q. reflexivity.
Qed.

(** ** Calls to the provider *)

(** X1.  No run of [POST /analyze] calls the provider more than once:
    there is no retry, whatever the request, the process and the
    provider's answer. *)
Theorem at_most_one_call p req_body :
  (List.length (outbound_calls (snd (run (Server.analyze p req_body)))) <= 1)%nat
  /\ (List.length (outbound_calls (snd (run (Part000.analyze p req_body))))
      <= 1)%nat.
Proof.
  split.
  - destruct (run_cases_calls (Server_run_cases p req_body))
      as [->|(_ & r & _ & ->)]; simpl; lia.
  - destruct (run_cases_calls (Part000_run_cases p req_body))
      as [->|(_ & r & _ & ->)]; simpl; lia.
Qed.

(** X2.  A key that is absent or set to the empty string is a missing
    key: no request reaches the provider, and every request with valid
    text is answered 500 with the configuration error. *)
Theorem missing_or_empty_key_never_calls p req_body :
  key_missing p = true ->
  outbound_calls (snd (run (Server.analyze p req_body))) = []
  /\ outbound_calls (snd (run (Part000.analyze p req_body))) = []
  /\ (forall s, has_text req_body (JStr s) -> (50 <= List.length s)%nat ->
        answers (Server.analyze p req_body)
          {| status := 500; body := Server.not_configured |}
        /\ answers (Part000.analyze p req_body)
             {| status := 500; body := Part000.not_configured |}).
Proof.
  intros K. split; [|split].
  - destruct (run_cases_calls (Server_run_cases p req_body))
      as [E|(K' & _)]; [exact E|congruence].
  - destruct (run_cases_calls (Part000_run_cases p req_body))
      as [E|(K' & _)]; [exact E|congruence].
  - intros s T V. split; unfold answers; unfold_handler; rewrite T.
    + rewrite (@Server_invalid_text_valid (JStr s)) by exact V.
      rewrite K. reflexivity.
    + rewrite Part000_invalid_text_string.
      replace (Nat.ltb (List.length s) 50) with false
        by (symmetry; apply Nat.ltb_ge; exact V).
      rewrite K. reflexivity.
Qed.

Lemma missing_or_empty_key_never_calls_witness :
  key_missing (empty_key (Ok (JSON (reply_with (num 9) reuters)))) = true /\
  outbound_calls
    (snd (run (Server.analyze
                 (empty_key (Ok (JSON (reply_with (num 9) reuters))))
                 (post (JStr long_text))))) = [] /\
  answers (Server.analyze (empty_key (Ok (JSON (reply_with (num 9) reuters))))
             (post (JStr long_text)))
    {| status := 500; body := Server.not_configured |}.
Proof.
  destruct (@missing_or_empty_key_never_calls
              (empty_key (Ok (JSON (reply_with (num 9) reuters))))
              (post (JStr long_text)) eq_refl) as (C & _ & H).
  destruct (H long_text eq_refl long_text_valid) as [A _].
  exact (conj eq_refl (conj C A)).
Defined.

(** X3.  Every request that goes to the provider is made with a key
    present, for a string text of at least 50 code units read off the
    body, and carries between 50 and 5000 code units of it behind the
    file's prefix, the system prompt, the search tool, temperature 0.2 and
    the five-field JSON schema. *)
Theorem every_call_is_well_formed p req_body r :
  In r (outbound_calls (snd (run (Server.analyze p req_body))))
  \/ In r (outbound_calls (snd (run (Part000.analyze p req_body)))) ->
  key_missing p = false
  /\ (exists s,
        has_text req_body (JStr s)
        /\ (50 <= List.length s)%nat
        /\ (50 <= List.length (substring0 s 5000) <= 5000)%nat
        /\ (contents r = js "Fact-check this:" ++ [newline; newline]
                         ++ substring0 s 5000
            \/ contents r = js "Fact-check this post:" ++ [newline; newline]
                            ++ substring0 s 5000))
  /\ systemInstruction r = systemPrompt p
  /\ googleSearch r = true
  /\ temperature r = 2 # 10
  /\ responseMimeType r = "application/json"
  /\ responseSchema r = analysis_schema.
Proof.
  assert (B : forall s, (50 <= List.length s)%nat ->
                        (50 <= List.length (substring0 s 5000) <= 5000)%nat).
  { intros s V. unfold substring0. rewrite length_firstn.
    split; [apply Nat.min_glb; [|exact V]|apply Nat.le_min_l].
    do 50 apply le_n_S. apply Nat.le_0_l. }
  intros [I|I].
  - destruct (run_cases_calls (Server_run_cases p req_body))
      as [E|(K & r' & (s & T & V & ->) & E)];
      rewrite E in I; simpl in I; [contradiction|].
    destruct I as [<-|[]].
    split; [exact K|]. split; [|repeat split].
    exists s. repeat split; try assumption; try apply (B s V). left; reflexivity.
  - destruct (run_cases_calls (Part000_run_cases p req_body))
      as [E|(K & r' & (s & T & V & ->) & E)];
      rewrite E in I; simpl in I; [contradiction|].
    destruct I as [<-|[]].
    split; [exact K|]. split; [|repeat split].
    exists s. repeat split; try assumption; try apply (B s V). right; reflexivity.
Qed.

Lemma every_call_is_well_formed_witness :
  In (make_request (configured (Ok NotJSON)) "Fact-check this:" long_text)
     (outbound_calls
        (snd (run (Server.analyze (configured (Ok NotJSON))
                     (post (JStr long_text))))))
  /\ key_missing (configured (Ok NotJSON)) = false
  /\ googleSearch
       (make_request (configured (Ok NotJSON)) "Fact-check this:" long_text)
     = true.
Proof.
  assert (I : In (make_request (configured (Ok NotJSON)) "Fact-check this:"
                    long_text)
                (outbound_calls
                   (snd (run (Server.analyze (configured (Ok NotJSON))
                                (post (JStr long_text)))))))
    by (left; reflexivity).
  destruct (@every_call_is_well_formed (configured (Ok NotJSON))
              (post (JStr long_text)) _ (or_introl I))
    as (K & _ & _ & G & _).
  exact (conj I (conj K G)).
Defined.

(** ** Statuses, canned bodies and error lines *)

(** X4.  [POST /analyze] answers 200 or 500 and nothing else, and every
    500 carries one of the file's two canned bodies (configuration error,
    analysis failed): nothing of the exception or of the provider's answer
    reaches the caller of a failed request. *)
Theorem every_500_is_canned p req_body :
  (exists resp,
     answers (Server.analyze p req_body) resp
     /\ (status resp = 200
         \/ resp = {| status := 500; body := Server.not_configured |}
         \/ resp = {| status := 500; body := Server.analysis_failed |}))
  /\ (exists resp,
        answers (Part000.analyze p req_body) resp
        /\ (status resp = 200
            \/ resp = {| status := 500; body := Part000.not_configured |}
            \/ resp = {| status := 500; body := Part000.analysis_failed |})).
Proof.
  split.
  - destruct (run_cases_response (Server_run_cases p req_body))
      as (resp & t & R & [[S _]|(S & B & _)]);
      exists resp; (split; [unfold answers; rewrite R; reflexivity|]);
      [left; exact S|].
    destruct resp as [st b]; simpl in S, B; subst st.
    destruct B as [->| ->]; auto.
  - destruct (run_cases_response (Part000_run_cases p req_body))
      as (resp & t & R & [[S _]|(S & B & _)]);
      exists resp; (split; [unfold answers; rewrite R; reflexivity|]);
      [left; exact S|].
    destruct resp as [st b]; simpl in S, B; subst st.
    destruct B as [->| ->]; auto.
Qed.

(** X5.  Every 500 is written to the error console, once, and no 200 is:
    a run leaves exactly one [console.error] line when it answers 500 and
    none when it answers 200. *)
Theorem errors_are_logged_once p req_body :
  (exists resp t,
     run (Server.analyze p req_body) = (Ok resp, t)
     /\ ((status resp = 200 /\ console_errors t = [])
         \/ (status resp = 500 /\ exists e, console_errors t = [e])))
  /\ (exists resp t,
        run (Part000.analyze p req_body) = (Ok resp, t)
        /\ ((status resp = 200 /\ console_errors t = [])
            \/ (status resp = 500 /\ exists e, console_errors t = [e]))).
Proof.
  split.
  - destruct (run_cases_response (Server_run_cases p req_body))
      as (resp & t & R & [H|(S & _ & E)]); exists resp, t; auto.
  - destruct (run_cases_response (Part000_run_cases p req_body))
      as (resp & t & R & [H|(S & _ & E)]); exists resp, t; auto.
Qed.

(** X6.  When the provider's call throws, the exception itself goes to
    the error console after the length line and the call, the length
    logged is that of the truncated text, and the response is the same
    whatever the exception: its message is not returned to the caller. *)
Theorem thrown_exception_is_logged_not_returned p req_body s e :
  key_missing p = false ->
  has_text req_body (JStr s) ->
  (50 <= List.length s)%nat ->
  (generateContent p (make_request p "Fact-check this:" (substring0 s 5000))
   = Throw e ->
   run (Server.analyze p req_body)
   = (Ok {| status := 500; body := Server.analysis_failed |},
      [Console (LogAnalyzing (Nat.min 5000 (List.length s)));
       Outbound (make_request p "Fact-check this:" (substring0 s 5000));
       Console (ErrorFailed e)]))
  /\ (generateContent p
        (make_request p "Fact-check this post:" (substring0 s 5000))
      = Throw e ->
      run (Part000.analyze p req_body)
      = (Ok {| status := 500; body := Part000.analysis_failed |},
         [Console (LogAnalyzing (Nat.min 5000 (List.length s)));
          Outbound (make_request p "Fact-check this post:"
                      (substring0 s 5000));
          Console (ErrorFailed e)])).
Proof.
  intros K T V.
  assert (L : List.length (substring0 s 5000) = Nat.min 5000 (List.length s))
    by apply length_firstn.
  rewrite <- L. set (t := substring0 s 5000).
  split; intros G; unfold_handler; rewrite T.
  - rewrite (@Server_invalid_text_valid (JStr s)) by exact V.
    rewrite K. cbv iota. unfold substring. cbv iota. fold t.
    clearbody t. rewrite G. reflexivity.
  - rewrite Part000_invalid_text_string.
    replace (Nat.ltb (List.length s) 50) with false
      by (symmetry; apply Nat.ltb_ge; exact V).
    rewrite K. cbv iota. unfold substring. cbv iota. fold t.
    clearbody t. rewrite G. reflexivity.
Qed.

Lemma thrown_exception_is_logged_not_returned_witness :
  key_missing (configured (Throw (ProviderError (js "503")))) = false /\
  has_text (post (JStr long_text)) (JStr long_text) /\
  (50 <= List.length long_text)%nat /\
  run (Server.analyze (configured (Throw (ProviderError (js "503"))))
         (post (JStr long_text)))
  = (Ok {| status := 500; body := Server.analysis_failed |},
     [Console (LogAnalyzing 60);
      Outbound (make_request (configured (Throw (ProviderError (js "503"))))
                  "Fact-check this:" long_text);
      Console (ErrorFailed (ProviderError (js "503")))]).
Proof.
  assert (T : has_text (post (JStr long_text)) (JStr long_text))
    by reflexivity.
  destruct (@thrown_exception_is_logged_not_returned
              (configured (Throw (ProviderError (js "503"))))
              (post (JStr long_text)) long_text (ProviderError (js "503"))
              eq_refl T long_text_valid) as [A _].
  split; [reflexivity|]. split; [exact T|].
  split; [exact long_text_valid|]. exact (A eq_refl).
Defined.

(** ** What every response holds *)

(** X7.  On every path of both files the score of the response is a
    Number, never a string or a boolean the provider sent, and it lies in
    [0, 10] unless it is NaN. *)
Theorem score_is_a_number_in_range_or_NaN p req_body :
  (exists resp n, answers (Server.analyze p req_body) resp
                  /\ field (body resp) "score" = JNum n
                  /\ (n = NaN \/ in_0_10 n))
  /\ (exists resp n, answers (Part000.analyze p req_body) resp
                     /\ field (body resp) "score" = JNum n
                     /\ (n = NaN \/ in_0_10 n)).
Proof.
  destruct (@every_response
              (fun b => exists n, field b "score" = JNum n
                                  /\ (n = NaN \/ in_0_10 n))
              p req_body) as [(rs & As & ns & Hs) (rp & Ap & np & Hp)];
    try (exists (Fin (inject_Z 5)); split;
         [reflexivity|right; exact five_in_range]).
  - intros r v a G N.
    destruct (normalize_fields v N) as [(n & C & F) _].
    exists n; split; [exact F|].
    unfold clamp_0_10 in C.
    destruct (ToNumber _) as [y|e]; cbn [and_then] in C; [|discriminate].
    assert (E : n = Math_min (Fin 10) (Math_max (Fin 0) y)) by congruence.
    subst n. destruct y as [| | |q]; [left; reflexivity| | |];
      right; apply clamp_in_range; discriminate.
  - split; [exists rs, ns | exists rp, np]; auto.
Qed.

(** X8.  On every path of both files the response's [sources] is truthy
    (never null, undefined or the empty string, so its [length] can be
    read), and its [claimsChecked] is truthy or the number 0. *)
Theorem sources_and_claims_are_never_missing p req_body :
  (exists resp, answers (Server.analyze p req_body) resp
                /\ ToBoolean (field (body resp) "sources") = true
                /\ (ToBoolean (field (body resp) "claimsChecked") = true
                    \/ field (body resp) "claimsChecked" = num 0))
  /\ (exists resp, answers (Part000.analyze p req_body) resp
                   /\ ToBoolean (field (body resp) "sources") = true
                   /\ (ToBoolean (field (body resp) "claimsChecked") = true
                       \/ field (body resp) "claimsChecked" = num 0)).
Proof.
  apply (@every_response
           (fun b => ToBoolean (field b "sources") = true
                     /\ (ToBoolean (field b "claimsChecked") = true
                         \/ field b "claimsChecked" = num 0)));
    try (split; [reflexivity|right; reflexivity]).
  intros r v a G N.
  destruct (normalize_fields v N) as (_ & S & C & _).
  rewrite S, C. unfold or_else. split.
  - destruct (ToBoolean (field v "sources")) eqn:B; [exact B|reflexivity].
  - destruct (ToBoolean (field v "claimsChecked")) eqn:B; [left; exact B|].
    right; reflexivity.
Qed.

(** ** Replies that pass unchanged *)

Lemma assign_same k v ps : lookup k ps = Some v -> assign k v ps = ps.
Proof.
  induction ps as [|[k' v'] ps IH]; simpl; [discriminate|].
  destruct (jsstring_eqb k k') eqn:E.
  - intros H; inversion H; reflexivity.
  - intros H; rewrite (IH H); reflexivity.
Qed.

Lemma clamp_inside q :
  (0 < q)%Q -> (q < 10)%Q ->
  ToBoolean (JNum (Fin q)) = true
  /\ Math_min (Fin 10) (Math_max (Fin 0) (Fin q)) = Fin q.
Proof.
  intros L U. split.
  - unfold ToBoolean, num_is_zero.
    rewrite (proj1 (Qgt_alt q 0) L). reflexivity.
  - rewrite clamp_Fin.
    replace (Qle_bool q 0) with false.
    + replace (Qle_bool 10 q) with false; [reflexivity|].
      symmetry. destruct (Qle_bool 10 q) eqn:B; [|reflexivity].
      apply Qle_bool_iff in B. exfalso.
      apply (Qlt_irrefl q). eapply Qlt_le_trans; eauto.
    + symmetry. destruct (Qle_bool q 0) eqn:B; [|reflexivity].
      apply Qle_bool_iff in B. exfalso.
      apply (Qlt_irrefl 0). eapply Qlt_le_trans; eauto.
Qed.

(** X9.  A reply that is an object with a score strictly between 0 and
    10, a string (or no) risk, an array of strings as sources and a truthy
    claimsChecked is answered 200 and echoed as it is: same properties,
    same values, same order.  The count is not validated: any truthy
    claimsChecked, a negative number or a string included, is passed
    on. *)
Theorem well_formed_reply_is_echoed p req_body s ps q es :
  key_missing p = false ->
  has_text req_body (JStr s) ->
  (50 <= List.length s)%nat ->
  replied p s (JObj ps) ->
  field (JObj ps) "score" = JNum (Fin q) ->
  (0 < q)%Q -> (q < 10)%Q ->
  field (JObj ps) "risk" = JUndefined \/ is_string (field (JObj ps) "risk") ->
  field (JObj ps) "sources" = JArr es [] -> Forall is_string es ->
  ToBoolean (field (JObj ps) "claimsChecked") = true ->
  answers (Server.analyze p req_body) {| status := 200; body := JObj ps |}
  /\ answers (Part000.analyze p req_body)
       {| status := 200; body := JObj ps |}.
Proof.
  intros K T V G Fs L U Fr Fo Fes Fc.
  assert (Ty : typed_reply (JObj ps)).
  { split; [eexists; reflexivity|]. split; [right; eexists; exact Fs|].
    split; [exact Fr|]. right; exists es; auto. }
  destruct (typed_reply_checked Ty) as (a & N & Cs & Cp).
  assert (E : a = JObj ps).
  { rewrite normalize_spec in N. cbn [own_props with_props] in N.
    assert (O : own_props (JObj ps) = Some ps) by reflexivity.
    rewrite (field_own _ O) in Fs by discriminate.
    rewrite (field_own _ O) in Fo by discriminate.
    rewrite (field_own _ O) in Fc by discriminate.
    destruct (clamp_inside L U) as [Tr Cl].
    rewrite Fs in N. unfold or_else at 1 in N. rewrite Tr in N.
    unfold clamp_0_10 in N. cbn [ToNumber and_then] in N. rewrite Cl in N.
    rewrite (assign_same _ _ (own_lookup _ _ Fs ltac:(discriminate))) in N.
    rewrite Fo in N.
    change (or_else (JArr es []) empty_array) with (JArr es []) in N.
    rewrite (assign_same _ _ (own_lookup _ _ Fo ltac:(discriminate))) in N.
    unfold or_else in N. rewrite Fc in N.
    rewrite assign_same in N; [congruence|].
    apply own_lookup; [reflexivity|].
    intros U'. rewrite U' in Fc. discriminate Fc. }
  subst a.
  destruct (@answer_to_reply p req_body s (JObj ps) K T V G) as [As Ap].
  rewrite Cs in As. rewrite Cp in Ap. split; assumption.
Qed.

Lemma well_formed_reply_is_echoed_witness :
  key_missing (configured (Ok (JSON (reply_with (num 9) reuters)))) = false /\
  has_text (post (JStr long_text)) (JStr long_text) /\
  (50 <= List.length long_text)%nat /\
  replied (configured (Ok (JSON (reply_with (num 9) reuters)))) long_text
    (reply_with (num 9) reuters) /\
  field (reply_with (num 9) reuters) "score" = JNum (Fin 9) /\
  (0 < 9)%Q /\ (9 < 10)%Q /\
  is_string (field (reply_with (num 9) reuters) "risk") /\
  field (reply_with (num 9) reuters) "sources" = JArr [str "Reuters"] [] /\
  Forall is_string [str "Reuters"] /\
  ToBoolean (field (reply_with (num 9) reuters) "claimsChecked") = true /\
  answers (Server.analyze
             (configured (Ok (JSON (reply_with (num 9) reuters))))
             (post (JStr long_text)))
    {| status := 200; body := reply_with (num 9) reuters |}
  /\ answers (Part000.analyze
                (configured (Ok (JSON (reply_with (num 9) reuters))))
                (post (JStr long_text)))
       {| status := 200; body := reply_with (num 9) reuters |}.
Proof.
  assert (T : has_text (post (JStr long_text)) (JStr long_text))
    by reflexivity.
  assert (G : replied (configured (Ok (JSON (reply_with (num 9) reuters))))
                long_text (reply_with (num 9) reuters))
    by (split; reflexivity).
  assert (L : (0 < 9)%Q) by reflexivity.
  assert (U : (9 < 10)%Q) by reflexivity.
  assert (R : is_string (field (reply_with (num 9) reuters) "risk"))
    by exact I.
  assert (F : Forall is_string [str "Reuters"])
    by (constructor; [exact I|constructor]).
  pose proof (@well_formed_reply_is_echoed
                (configured (Ok (JSON (reply_with (num 9) reuters))))
                (post (JStr long_text)) long_text _ 9 [str "Reuters"]
                eq_refl T long_text_valid G eq_refl L U (or_intror R)
                eq_refl F eq_refl) as H.
  split; [reflexivity|]. split; [exact T|].
  split; [exact long_text_valid|]. split; [exact G|].
  split; [reflexivity|]. split; [exact L|]. split; [exact U|].
  split; [exact R|]. split; [reflexivity|]. split; [exact F|].
  split; [reflexivity|]. exact H.
Defined.

(** ** Where the two files part *)

Lemma less_than_nat_50 (n : nat) :
  less_than (JNum (num_of_nat n)) (num 50) = Ok (Z.of_nat n <? 50).
Proof.
  unfold less_than, num, num_of_nat, ToNumber, and_then.
  rewrite num_ltb_of_Z; reflexivity.
Qed.

Lemma has_text_unique req_body a b :
  has_text req_body a -> has_text req_body b -> a = b.
Proof. unfold has_text. congruence. Qed.

(** X10.  [src/unnamed/part_000] checks the length of the text, not its
    type.  A text that is not a string is never sent to the provider and
    never analysed: the answer is one of the three canned bodies.  With a
    key, a non-zero number, [true] or an array of 50 elements or more
    passes the length check and ends in the catch block with 500, where
    [src/server.js] answers the 200 of a too-short post. *)
Theorem part_000_rejects_non_strings_late p req_body text :
  has_text req_body text ->
  ~ is_string text ->
  outbound_calls (snd (run (Part000.analyze p req_body))) = []
  /\ (exists resp,
        answers (Part000.analyze p req_body) resp
        /\ (resp = {| status := 200; body := Part000.too_short |}
            \/ resp = {| status := 500; body := Part000.not_configured |}
            \/ resp = {| status := 500; body := Part000.analysis_failed |}))
  /\ (key_missing p = false ->
      (exists n, text = JNum n /\ ToBoolean text = true)
      \/ text = JBool true
      \/ (exists es, text = JArr es [] /\ (50 <= List.length es)%nat) ->
      answers (Part000.analyze p req_body)
        {| status := 500; body := Part000.analysis_failed |})
  /\ answers (Server.analyze p req_body)
       {| status := 200; body := Server.too_short |}.
Proof.
  intros T NS.
  assert (NV : ~ valid_text text).
  { destruct text; simpl; try tauto. simpl in NS. tauto. }
  split; [|split; [|split]].
  - destruct (run_cases_calls (Part000_run_cases p req_body))
      as [E|(_ & r & (s & T' & _) & _)]; [exact E|].
    rewrite (has_text_unique T T') in NS. simpl in NS. tauto.
  - destruct (Part000_run_cases p req_body)
      as [R|[[_ R]|[[e R]|(_ & s & resp & tail & T' & _)]]];
      try (eexists; split; [unfold answers; rewrite R; reflexivity|auto]).
    rewrite (has_text_unique T T') in NS. simpl in NS. tauto.
  - intros K H.
    assert (I : Part000.invalid_text text = Ok false).
    { destruct H as [(n & -> & B)|[->|(es & -> & L)]].
      - unfold Part000.invalid_text. rewrite B. reflexivity.
      - reflexivity.
      - unfold Part000.invalid_text.
        change (ToBoolean (JArr es [])) with true. cbv iota.
        change (get_prop (JArr es []) (js "length"))
          with (Ok (JNum (num_of_nat (List.length es))) : result value).
        cbn [negb and_then]. rewrite less_than_nat_50.
        f_equal. apply Z.ltb_ge. lia. }
    unfold answers; unfold_handler. rewrite T, I, K.
    destruct H as [(n & -> & _)|[->|(es & -> & _)]]; reflexivity.
  - unfold answers; unfold_handler. rewrite T.
    rewrite (Server_invalid_text_invalid text NV). reflexivity.
Qed.

Lemma part_000_rejects_non_strings_late_witness :
  has_text (post (num 12345)) (num 12345) /\
  ~ is_string (num 12345) /\
  outbound_calls
    (snd (run (Part000.analyze
                 (configured (Ok (JSON (reply_with (num 9) reuters))))
                 (post (num 12345))))) = [] /\
  answers (Part000.analyze
             (configured (Ok (JSON (reply_with (num 9) reuters))))
             (post (num 12345)))
    {| status := 500; body := Part000.analysis_failed |} /\
  answers (Server.analyze
             (configured (Ok (JSON (reply_with (num 9) reuters))))
             (post (num 12345)))
    {| status := 200; body := Server.too_short |}.
Proof.
  assert (T : has_text (post (num 12345)) (num 12345)) by reflexivity.
  assert (NS : ~ is_string (num 12345)) by (intros H; exact H).
  destruct (@part_000_rejects_non_strings_late
              (configured (Ok (JSON (reply_with (num 9) reuters))))
              (post (num 12345)) (num 12345) T NS) as (C & _ & H & S).
  split; [exact T|]. split; [exact NS|]. split; [exact C|].
  split; [|exact S].
  apply H; [reflexivity|].
  left. exists (num_of_Z 12345). split; reflexivity.
Defined.

Lemma less_than_0_nat (n : nat) :
  less_than (num 0) (JNum (num_of_nat n)) = Ok (0 <? Z.of_nat n).
Proof.
  unfold less_than, num, num_of_nat, ToNumber, and_then.
  rewrite num_ltb_of_Z; reflexivity.
Qed.

(** What is left of the two [try] blocks once the reply is normalized and
    its risk has a string: the console lines on [sources]. *)
Lemma checked_by_sources ps a :
  normalize (JObj ps) = Ok a ->
  ToString (field (JObj ps) "risk") = Ok tt ->
  Server.checked (Ok (JSON (JObj ps)))
  = (let! n := get_prop (field a "sources") (js "length") in
     let! _ := ToString n in Ok a)
  /\ Part000.checked (Ok (JSON (JObj ps)))
     = (let! n := get_prop (field a "sources") (js "length") in
        let! nonempty := less_than (num 0) n in
        let! _ := (if nonempty then join (field a "sources") else Ok tt) in
        Ok a).
Proof.
  intros N RT.
  assert (O : own_props (JObj ps) = Some ps) by reflexivity.
  destruct (normalize_fields _ N) as ((n' & _ & Fs) & _ & _ & Frame).
  assert (O' : exists ps', own_props a = Some ps').
  { rewrite normalize_spec in N. cbn [own_props] in N.
    destruct (clamp_0_10 _); cbn [and_then] in N; [|discriminate].
    inversion N; eexists; reflexivity. }
  destruct O' as [ps' O'].
  assert (R : get_prop a (js "risk") = Ok (field (JObj ps) "risk")).
  { rewrite Frame by discriminate. apply (get_prop_field _ _ O). }
  unfold Server.checked, Part000.checked. cbn [JSON_parse and_then].
  rewrite N. cbn [and_then].
  rewrite R. cbn [and_then]. rewrite RT. cbn [and_then].
  rewrite (get_prop_field _ "score" O'), Fs.
  cbn [and_then ToString ToString_completes].
  rewrite (get_prop_field _ "sources" O'). cbn [and_then].
  split; reflexivity.
Qed.

Lemma normalize_returns ps :
  field (JObj ps) "score" = JUndefined
  \/ (exists n, field (JObj ps) "score" = JNum n) ->
  exists a, normalize (JObj ps) = Ok a.
Proof.
  intros Sc.
  assert (O : own_props (JObj ps) = Some ps) by reflexivity.
  assert (C : exists n, clamp_0_10 (or_else (field (JObj ps) "score") (num 5))
                        = Ok n).
  { destruct Sc as [-> | [n ->]]; [eexists; reflexivity|].
    unfold or_else. destruct (ToBoolean (JNum n)); eexists; reflexivity. }
  destruct C as [n C].
  rewrite normalize_spec. cbn [own_props].
  rewrite (field_own _ O) in C by discriminate.
  rewrite C. eexists; reflexivity.
Qed.

(** X11.  The two files part on a reply whose [sources] is a non-empty
    string instead of an array.  [src/server.js] only reads its [length]
    and answers 200 with the string passed on; [src/unnamed/part_000]
    calls [join] on it inside the [try] block and answers 500 with the
    canned failure. *)
Theorem string_sources_split_the_files p req_body s ps src :
  key_missing p = false ->
  has_text req_body (JStr s) ->
  (50 <= List.length s)%nat ->
  replied p s (JObj ps) ->
  field (JObj ps) "score" = JUndefined
  \/ (exists n, field (JObj ps) "score" = JNum n) ->
  field (JObj ps) "risk" = JUndefined \/ is_string (field (JObj ps) "risk") ->
  field (JObj ps) "sources" = JStr src ->
  src <> [] ->
  exists a,
    normalize (JObj ps) = Ok a
    /\ field a "sources" = JStr src
    /\ answers (Server.analyze p req_body) {| status := 200; body := a |}
    /\ answers (Part000.analyze p req_body)
         {| status := 500; body := Part000.analysis_failed |}.
Proof.
  intros K T V G Sc Rk So NE.
  destruct (@normalize_returns ps Sc) as [a N]. exists a.
  split; [exact N|].
  assert (RT : ToString (field (JObj ps) "risk") = Ok tt).
  { destruct Rk as [-> | S]; [reflexivity|].
    destruct (field (JObj ps) "risk"); simpl in S; try tauto; reflexivity. }
  assert (Fa : field a "sources" = JStr src).
  { destruct (normalize_fields _ N) as (_ & Fsrc & _).
    rewrite Fsrc, So. destruct src; [congruence|reflexivity]. }
  split; [exact Fa|].
  destruct (@checked_by_sources ps a N RT) as [Cs Cp].
  rewrite Fa in Cs, Cp.
  change (get_prop (JStr src) (js "length"))
    with (Ok (JNum (num_of_nat (List.length src))) : result value) in Cs, Cp.
  cbn [and_then ToString ToString_completes] in Cs.
  cbn [and_then] in Cp. rewrite less_than_0_nat in Cp.
  replace (0 <? Z.of_nat (List.length src)) with true in Cp
    by (symmetry; apply Z.ltb_lt; destruct src; [congruence|simpl; lia]).
  cbn [and_then join] in Cp.
  destruct (@answer_to_reply p req_body s (JObj ps) K T V G) as [As Ap].
  rewrite Cs in As. rewrite Cp in Ap. split; assumption.
Qed.

Lemma string_sources_split_the_files_witness :
  key_missing (configured (Ok (JSON (reply_with (num 9) (str "Reuters")))))
  = false /\
  has_text (post (JStr long_text)) (JStr long_text) /\
  (50 <= List.length long_text)%nat /\
  replied (configured (Ok (JSON (reply_with (num 9) (str "Reuters")))))
    long_text (reply_with (num 9) (str "Reuters")) /\
  field (reply_with (num 9) (str "Reuters")) "sources" = str "Reuters" /\
  js "Reuters" <> [] /\
  answers (Server.analyze
             (configured (Ok (JSON (reply_with (num 9) (str "Reuters")))))
             (post (JStr long_text)))
    {| status := 200; body := reply_with (num 9) (str "Reuters") |} /\
  answers (Part000.analyze
             (configured (Ok (JSON (reply_with (num 9) (str "Reuters")))))
             (post (JStr long_text)))
    {| status := 500; body := Part000.analysis_failed |}.
Proof.
  assert (T : has_text (post (JStr long_text)) (JStr long_text))
    by reflexivity.
  assert (G : replied
                (configured (Ok (JSON (reply_with (num 9) (str "Reuters")))))
                long_text (reply_with (num 9) (str "Reuters")))
    by (split; reflexivity).
  assert (NE : js "Reuters" <> []) by discriminate.
  destruct (@string_sources_split_the_files
              (configured (Ok (JSON (reply_with (num 9) (str "Reuters")))))
              (post (JStr long_text)) long_text _ (js "Reuters")
              eq_refl T long_text_valid G
              (or_intror (ex_intro _ (Fin 9) eq_refl)) (or_intror I)
              eq_refl NE) as (a & N & _ & As & Ap).
  assert (E : a = reply_with (num 9) (str "Reuters")).
  { assert (Ok (reply_with (num 9) (str "Reuters")) = Ok a) as H
        by (rewrite <- N; reflexivity).
    congruence. }
  subst a.
  split; [reflexivity|]. split; [exact T|].
  split; [exact long_text_valid|]. split; [exact G|].
  split; [reflexivity|]. split; [exact NE|]. split; assumption.
Defined.

(** ** The console lines of an analysis *)

(** X12.  An analysis of a reply with the types of the schema leaves its
    effects in this order and no others: the line with the length of the
    truncated text, the call, then the verdict line with the risk and the
    score after the assignments.  [src/server.js] adds the number of
    sources to that line; [src/unnamed/part_000] writes the sources on a
    line of their own, and only when there is at least one. *)
Theorem analysis_is_logged_around_the_call p req_body s v :
  key_missing p = false ->
  has_text req_body (JStr s) ->
  (50 <= List.length s)%nat ->
  replied p s v ->
  typed_reply v ->
  exists a es,
    normalize v = Ok a
    /\ field a "sources" = JArr es []
    /\ run (Server.analyze p req_body)
       = (Ok {| status := 200; body := a |},
          opening p "Fact-check this:" s
          ++ [Console (LogVerdict (field a "risk") (field a "score")
                         [JNum (num_of_nat (List.length es))])])
    /\ run (Part000.analyze p req_body)
       = (Ok {| status := 200; body := a |},
          opening p "Fact-check this post:" s
          ++ Console (LogVerdict (field a "risk") (field a "score") [])
             :: match es with
                | [] => []
                | _ :: _ => [Console (LogSources (JArr es []))]
                end).
Proof.
  intros K T V [Gs Gp] Ty.
  destruct (typed_reply_checked Ty) as (a & N & _ & _).
  destruct Ty as ((ps & ->) & Sc & Rk & Sr).
  assert (O : own_props (JObj ps) = Some ps) by reflexivity.
  destruct (normalize_fields _ N) as ((n' & _ & Fs) & Fsrc & _ & Frame).
  assert (O' : exists ps', own_props a = Some ps').
  { rewrite normalize_spec in N. cbn [own_props] in N.
    destruct (clamp_0_10 _); cbn [and_then] in N; [|discriminate].
    inversion N; eexists; reflexivity. }
  destruct O' as [ps' O'].
  assert (RT : ToString (field a "risk") = Ok tt).
  { assert (E : field a "risk" = field (JObj ps) "risk")
      by (unfold field; rewrite Frame by discriminate; reflexivity).
    rewrite E. destruct Rk as [-> | S]; [reflexivity|].
    destruct (field (JObj ps) "risk"); simpl in S; try tauto; reflexivity. }
  assert (SL : exists es, field a "sources" = JArr es []
                          /\ Forall is_string es).
  { rewrite Fsrc. destruct Sr as [-> | (es & -> & F)].
    - exists []; split; [reflexivity|constructor].
    - exists es; split; [reflexivity|exact F]. }
  destruct SL as (es & Fa & Fes).
  exists a, es. split; [exact N|]. split; [exact Fa|].
  unfold opening, replies in *. set (t := substring0 s 5000) in *.
  split; unfold_handler; rewrite T.
  - rewrite (@Server_invalid_text_valid (JStr s)) by exact V.
    rewrite K. cbv iota. unfold substring. cbv iota. fold t.
    clearbody t. rewrite Gs. cbn [JSON_parse]. rewrite N.
    rewrite (get_prop_field _ "risk" O'), RT.
    rewrite (get_prop_field _ "score" O'), Fs.
    cbn [ToString ToString_completes].
    rewrite (get_prop_field _ "sources" O'), Fa.
    change (get_prop (JArr es []) (js "length"))
      with (Ok (JNum (num_of_nat (List.length es))) : result value).
    reflexivity.
  - rewrite Part000_invalid_text_string.
    replace (Nat.ltb (List.length s) 50) with false
      by (symmetry; apply Nat.ltb_ge; exact V).
    rewrite K. cbv iota. unfold substring. cbv iota. fold t.
    clearbody t. rewrite Gp. cbn [JSON_parse]. rewrite N.
    rewrite (get_prop_field _ "risk" O'), RT.
    rewrite (get_prop_field _ "score" O'), Fs.
    cbn [ToString ToString_completes].
    rewrite (get_prop_field _ "sources" O'), Fa.
    change (get_prop (JArr es []) (js "length"))
      with (Ok (JNum (num_of_nat (List.length es))) : result value).
    cbv beta iota. rewrite less_than_0_nat.
    destruct es as [|e es']; [reflexivity|].
    replace (0 <? Z.of_nat (List.length (e :: es'))) with true
      by (symmetry; apply Z.ltb_lt; simpl; lia).
    unfold join. cbn [has_own lookup]. rewrite (strings_join Fes).
    reflexivity.
Qed.

Lemma analysis_is_logged_around_the_call_witness :
  key_missing (configured (Ok (JSON (reply_with (num 9) reuters)))) = false /\
  has_text (post (JStr long_text)) (JStr long_text) /\
  (50 <= List.length long_text)%nat /\
  replied (configured (Ok (JSON (reply_with (num 9) reuters)))) long_text
    (reply_with (num 9) reuters) /\
  typed_reply (reply_with (num 9) reuters) /\
  exists a es,
    normalize (reply_with (num 9) reuters) = Ok a
    /\ field a "sources" = JArr es []
    /\ run (Server.analyze
              (configured (Ok (JSON (reply_with (num 9) reuters))))
              (post (JStr long_text)))
       = (Ok {| status := 200; body := a |},
          opening (configured (Ok (JSON (reply_with (num 9) reuters))))
            "Fact-check this:" long_text
          ++ [Console (LogVerdict (field a "risk") (field a "score")
                         [JNum (num_of_nat (List.length es))])]).
Proof.
  assert (T : has_text (post (JStr long_text)) (JStr long_text))
    by reflexivity.
  assert (G : replied (configured (Ok (JSON (reply_with (num 9) reuters))))
                long_text (reply_with (num 9) reuters))
    by (split; reflexivity).
  destruct (@analysis_is_logged_around_the_call
              (configured (Ok (JSON (reply_with (num 9) reuters))))
              (post (JStr long_text)) long_text _
              eq_refl T long_text_valid G (typed_reply_sample (Fin 9)))
    as (a & es & N & F & Rs & _).
  split; [reflexivity|]. split; [exact T|].
  split; [exact long_text_valid|]. split; [exact G|].
  split; [apply typed_reply_sample|].
  exists a, es. exact (conj N (conj F Rs)).
Defined.
